(** * Booking validity, pricing and review uniqueness of the travel listings app

    A shallow embedding of [listings/models.py], [listings/serializers.py] and
    the listing, booking and review loops of
    [listings/management/commands/seed.py].

    The relational store is a record of tables, each table a list of rows in
    insertion order.  Code that talks to the store lives in a small state and
    exception monad; Python exceptions are values of [Exn]. *)

From Stdlib Require Import ZArith NArith QArith List String Bool Lia.
Import ListNotations.

Local Open Scope string_scope.
Local Open Scope Z_scope.

(** ** Python's [decimal.Decimal] under the default context *)

Module Dec.

(** A finite decimal: the triple (_sign, _int, _exp) of the Python
    implementation; its value is (-1)^sign * int * 10^exp. *)
Record Decimal := mk { dsign : bool; dint : N; dexp : Z }.

(** Precision of the default context, [getcontext().prec]. *)
Definition prec : Z := 28.

(** [len(str(n))] for a coefficient. *)
Fixpoint ndigits_fuel (fuel : nat) (n : N) : Z :=
  match fuel with
  | O => 1
  | S f => if (n <? 10)%N then 1 else 1 + ndigits_fuel f (n / 10)%N
  end.

Definition ndigits (n : N) : Z := ndigits_fuel (N.to_nat (N.size n)) n.

Definition pow10 (k : Z) : N := Z.to_N (10 ^ k).

(** Drop the last [k] digits of [n] ([k >= 1]) with ROUND_HALF_EVEN, the
    rounding mode of the default context. *)
Definition round_half_even (n : N) (k : Z) : N :=
  let q := (n / pow10 k)%N in
  let r := (n mod pow10 k)%N in
  let half := (5 * pow10 (k - 1))%N in
  if (half <? r)%N then (q + 1)%N
  else if (r =? half)%N then (if N.odd q then (q + 1)%N else q)
  else q.

(** [Decimal._fix]: round a result to the context precision.  The exponent
    limits of the context (Emax = 999999, Emin = -999999) are out of reach
    of a price with a small exponent multiplied by an integer and are not
    represented. *)
Definition fix_ (d : Decimal) : Decimal :=
  if (dint d =? 0)%N then d
  else
    let exp_min := ndigits (dint d) + dexp d - prec in
    if dexp d <? exp_min then
      let coeff := round_half_even (dint d) (exp_min - dexp d) in
      if (pow10 prec <=? coeff)%N
      then mk (dsign d) (coeff / 10)%N (exp_min + 1)
      else mk (dsign d) coeff exp_min
    else d.

(** [Decimal(n)] for a Python int: exact, whatever the size of [n]. *)
Definition of_int (n : Z) : Decimal := mk (n <? 0) (Z.abs_N n) 0.

(** [Decimal.__mul__] on finite operands. *)
Definition mul (a b : Decimal) : Decimal :=
  fix_ (mk (xorb (dsign a) (dsign b)) (dint a * dint b)%N (dexp a + dexp b)).

(** [Decimal._rescale(exp, ROUND_HALF_EVEN)]. *)
Definition rescale (d : Decimal) (e : Z) : Decimal :=
  if (dint d =? 0)%N then mk (dsign d) 0 e
  else if e <=? dexp d then mk (dsign d) (dint d * pow10 (dexp d - e))%N e
  else
    let k := e - dexp d in
    if ndigits (dint d) <? k then mk (dsign d) 0 e
    else mk (dsign d) (round_half_even (dint d) k) e.

(** [Decimal.quantize(Decimal(1).scaleb(e), context)] with precision [p]:
    [None] stands for the InvalidOperation raised when the quantized
    coefficient would have more than [p] digits. *)
Definition quantize (p : Z) (d : Decimal) (e : Z) : option Decimal :=
  if (dint d =? 0)%N then Some (mk (dsign d) 0 e)
  else if p <? ndigits (dint d) + dexp d - e then None
  else
    let ans := rescale d e in
    if p <? ndigits (dint ans) then None else Some ans.

(** The rational number a decimal denotes. *)
Definition value (d : Decimal) : Q :=
  ((if dsign d then -(1) else 1) * inject_Z (Z.of_N (dint d))
   * Qpower (inject_Z 10) (dexp d))%Q.

End Dec.

Import Dec.


(** ** Dates *)

(** A [datetime.date] is represented by its proleptic Gregorian ordinal
    ([date.toordinal()]): comparison of dates is comparison of ordinals and
    [(b - a).days] is their difference.  A date object is always truthy. *)
Definition date := Z.

Definition is_leap (year : Z) : bool :=
  (year mod 4 =? 0) && (negb (year mod 100 =? 0) || (year mod 400 =? 0)).

Definition days_before_year (year : Z) : Z :=
  let y := year - 1 in y * 365 + y / 4 - y / 100 + y / 400.

Definition days_before_month (year month : Z) : Z :=
  nth (Z.to_nat month) [-1; 0; 31; 59; 90; 120; 151; 181; 212; 243; 273; 304; 334] 0
  + (if (2 <? month) && is_leap year then 1 else 0).

(** [date(year, month, day).toordinal()] for a valid calendar date. *)
Definition mkdate (year month day : Z) : date :=
  days_before_year year + days_before_month year month + day.

(** [(b - a).days]. *)
Definition days_between (a b : date) : Z := b - a.

(** ** Rows and tables (models.py) *)

(** [Listing]: the columns read by the booking and pricing code.  The
    descriptive columns (title, description, property_type, bedrooms,
    bathrooms, max_guests, location, timestamps) are read by no function
    modelled here. *)
Record Listing := mkListing {
  listing_pk : Z;
  price_per_night : Decimal;
  is_available : bool;
  owner : Z
}.

Record Booking := mkBooking {
  booking_pk : Z;
  booking_listing : Z;          (* listing_id foreign key *)
  guest : Z;                    (* guest_id foreign key *)
  check_in_date : date;
  check_out_date : date;
  total_price : Decimal;
  status : string
}.

Record Review := mkReview {
  review_pk : Z;
  review_listing : Z;           (* listing_id foreign key *)
  review_user : Z;              (* user_id foreign key *)
  rating : Z;
  comment : string
}.

(** [Booking.STATUS_CHOICES]. *)
Definition STATUS_CHOICES : list string :=
  ["pending"; "confirmed"; "cancelled"; "completed"].

(** The stored state: one table per model, rows in insertion order; [users]
    holds the primary keys of the auth users. *)
Record Store := mkStore {
  users : list Z;
  listings : list Listing;
  bookings : list Booking;
  reviews : list Review
}.

Definition empty_store : Store := mkStore [] [] [] [].

(** ** Exceptions and the store monad *)

Inductive Exn :=
| ValidationError (msg : string)
| DoesNotExist
| MultipleObjectsReturned
| KeyError (key : string)
| IndexError
| IntegrityError (what : string)
| InvalidOperation
| ZeroDivisionError
| AttributeError.

Inductive Result (A : Type) :=
| Ok (a : A)
| Raise (e : Exn).
Arguments Ok {A} a.
Arguments Raise {A} e.

(** A computation reads and writes the store and returns or raises. *)
Definition M (A : Type) : Type := Store -> Result A * Store.

Definition ret {A} (a : A) : M A := fun s => (Ok a, s).

Definition raise {A} (e : Exn) : M A := fun s => (Raise e, s).

Definition bind {A B} (m : M A) (k : A -> M B) : M B :=
  fun s => match m s with
           | (Ok a, s') => k a s'
           | (Raise e, s') => (Raise e, s')
           end.

(** A read-only query. *)
Definition query {A} (f : Store -> A) : M A := fun s => (Ok (f s), s).

Declare Scope py_scope.
Delimit Scope py_scope with py.
Notation "x <- m ;; k" := (bind m (fun x => k))
  (at level 61, m at next level, right associativity) : py_scope.
Notation "m ;;; k" := (bind m (fun _ => k))
  (at level 61, right associativity) : py_scope.
Local Open Scope py_scope.

(** [d[key]] / [d.pop(key)] on a dict entry that may be absent. *)
Definition getitem {A} (key : string) (v : option A) : M A :=
  match v with
  | Some a => ret a
  | None => raise (KeyError key)
  end.

(** The next value of an auto-incrementing primary key. *)
Definition next_pk (pks : list Z) : Z := 1 + fold_right Z.max 0 pks.

(** ** Model methods (models.py) *)

(** [Listing.total_price_for_nights]: [price_per_night * Decimal(nights)]. *)
Definition total_price_for_nights (self : Listing) (nights : Z) : Decimal :=
  Dec.mul (price_per_night self) (Dec.of_int nights).

(** [Booking.clean], called by [full_clean()] (model forms, the admin). *)
Definition clean (check_in check_out : date) : M unit :=
  if check_out <=? check_in
  then raise (ValidationError "Check-out date must be after check-in date.")
  else ret tt.

(** [Booking.nights_booked]. *)
Definition nights_booked (self : Booking) : Z :=
  days_between (check_in_date self) (check_out_date self).

(** ** Manager operations *)

Definition in_list (x : string) (l : list string) : bool :=
  existsb (String.eqb x) l.

Definition mem_pk (x : Z) (l : list Z) : bool := existsb (Z.eqb x) l.

(** [Listing.objects.get(id=pk)]. *)
Definition Listing_objects_get (pk : Z) : M Listing :=
  fun s => match filter (fun l => listing_pk l =? pk) (listings s) with
           | [] => (Raise DoesNotExist, s)
           | [l] => (Ok l, s)
           | _ => (Raise MultipleObjectsReturned, s)
           end.

(** Writing a value to a [DecimalField(max_digits, decimal_places)] column,
    as the base database backend does through Django 4.1
    ([utils.format_number]): the value is quantized to [decimal_places]
    under precision [max_digits], and a value with too many digits raises.
    From Django 4.2 the backend hands the value to the database driver
    unchanged and refusing an over-long value is left to the database.  The
    sources pin no version; the two behaviours agree on every value that
    already has [decimal_places] places and at most [max_digits] digits
    (lemma [quantize_fits]). *)
Definition adapt_decimalfield_value (max_digits decimal_places : Z) (v : Decimal)
  : M Decimal :=
  match Dec.quantize max_digits v (- decimal_places) with
  | Some d => ret d
  | None => raise InvalidOperation
  end.

(** The store with one more booking row. *)
Definition add_booking (s : Store) (b : Booking) : Store :=
  mkStore (users s) (listings s) (bookings s ++ [b]) (reviews s).

Definition insert_booking (b : Booking) : M Booking :=
  fun s => (Ok b, add_booking s b).

(** The store with one more review row. *)
Definition add_review (s : Store) (r : Review) : Store :=
  mkStore (users s) (listings s) (bookings s) (reviews s ++ [r]).

Definition insert_review (r : Review) : M Review :=
  fun s => (Ok r, add_review s r).

(** The store with one more listing row. *)
Definition add_listing (s : Store) (l : Listing) : Store :=
  mkStore (users s) (listings s ++ [l]) (bookings s) (reviews s).

Definition insert_listing (l : Listing) : M Listing :=
  fun s => (Ok l, add_listing s l).

(** [Listing.objects.create(price_per_night=.., owner=.., is_available=..)]
    with the descriptive columns left out. *)
Definition Listing_objects_create
    (price : Decimal) (own : Z) (available : bool) : M Listing :=
  p' <- adapt_decimalfield_value 10 2 price ;;
  us <- query users ;;
  if negb (mem_pk own us)
  then raise (IntegrityError "FOREIGN KEY constraint failed")
  else
    ls <- query listings ;;
    insert_listing (mkListing (next_pk (map listing_pk ls)) p' available own).

(** [Booking.objects.create(listing=.., guest=.., check_in_date=..,
    check_out_date=.., total_price=.., status=..)].  A keyword that is not
    passed leaves its column NULL, except [status], which has the default
    'pending'.  One INSERT: either the row is added or the store is
    untouched. *)
Definition Booking_objects_create
    (listing guest : option Z) (check_in check_out : option date)
    (price : option Decimal) (st : option string) : M Booking :=
  match listing, guest, check_in, check_out, price with
  | Some l, Some g, Some ci, Some co, Some p =>
      p' <- adapt_decimalfield_value 10 2 p ;;
      ls <- query listings ;;
      us <- query users ;;
      if negb (mem_pk l (map listing_pk ls) && mem_pk g us)
      then raise (IntegrityError "FOREIGN KEY constraint failed")
      else
        bs <- query bookings ;;
        insert_booking
          (mkBooking (next_pk (map booking_pk bs)) l g ci co p'
             (match st with Some x => x | None => "pending" end))
  | _, _, _, _, _ => raise (IntegrityError "NOT NULL constraint failed")
  end.

(** [Review.objects.create(listing_id=.., user=.., rating=.., comment=..)];
    [Meta.unique_together = ['listing', 'user']] is a uniqueness constraint
    of the table. *)
Definition Review_objects_create
    (listing_id : option Z) (user : Z) (rt : option Z) (cm : option string)
  : M Review :=
  match listing_id, rt, cm with
  | Some l, Some r, Some c =>
      ls <- query listings ;;
      us <- query users ;;
      rs <- query reviews ;;
      if negb (mem_pk l (map listing_pk ls) && mem_pk user us)
      then raise (IntegrityError "FOREIGN KEY constraint failed")
      else if existsb (fun x => (review_listing x =? l) && (review_user x =? user)) rs
      then raise (IntegrityError "UNIQUE constraint failed")
      else insert_review (mkReview (next_pk (map review_pk rs)) l user r c)
  | _, _, _ => raise (IntegrityError "NOT NULL constraint failed")
  end.

(** ** serializers.py *)

(** Truthiness of [data.get(key)]: an absent key gives None; an int is
    falsy when it is 0; a date is always truthy. *)
Definition truthy_int (v : option Z) : bool :=
  match v with Some z => negb (z =? 0) | None => false end.

Definition truthy_date (v : option date) : bool :=
  match v with Some _ => true | None => false end.

Module BookingSerializer.

(** The dict handed to [validate] and [create].  [listing_id],
    [check_in_date], [check_out_date] and [status] are the writable fields
    of the serializer; [listing] and [guest] are read-only fields and can
    only be present when the caller passed them as keyword arguments of
    [save]. *)
Record Data := mkData {
  listing_id : option Z;
  check_in : option date;
  check_out : option date;
  status_ : option string;
  listing : option Z;
  guest_ : option Z
}.

(** The queryset built on lines 82-87:
    [Booking.objects.filter(listing_id=.., status__in=['confirmed',
    'pending'], check_in_date__lt=check_out_date,
    check_out_date__gt=check_in_date).exclude(pk=..)].
    [exclude(pk=None)] excludes no row. *)
Definition conflicts (lid : Z) (ci co : date) (b : Booking) : bool :=
  (booking_listing b =? lid)
  && in_list (status b) ["confirmed"; "pending"]
  && (check_in_date b <? co)
  && (check_out_date b >? ci).

Definition overlapping_bookings
    (instance : option Booking) (lid : Z) (ci co : date) (s : Store)
  : list Booking :=
  filter (fun b => match instance with
                   | Some i => negb (booking_pk b =? booking_pk i)
                   | None => true
                   end)
         (filter (conflicts lid ci co) (bookings s)).

(** [Listing.objects.filter(id=listing_id, is_available=True).first()];
    the default ordering of [Listing] is newest first. *)
Definition available_listing (lid : Z) (s : Store) : option Listing :=
  hd_error (rev (filter (fun l => (listing_pk l =? lid) && is_available l)
                        (listings s))).

Definition validate (instance : option Booking) (data : Data) : M Data :=
  if truthy_int (listing_id data) && truthy_date (check_in data)
     && truthy_date (check_out data)
  then
    match listing_id data, check_in data, check_out data with
    | Some lid, Some ci, Some co =>
        overlapping <- query (overlapping_bookings instance lid ci co) ;;
        match overlapping with
        | _ :: _ =>
            raise (ValidationError
                     "This listing is not available for the selected dates.")
        | [] =>
            l <- query (available_listing lid) ;;
            match l with
            | None => raise (ValidationError "This listing is not available.")
            | Some _ => ret data
            end
        end
    | _, _, _ => ret data
    end
  else ret data.

Definition create (validated_data : Data) : M Booking :=
  lid <- getitem "listing_id" (listing_id validated_data) ;;
  l <- Listing_objects_get lid ;;
  co <- getitem "check_out_date" (check_out validated_data) ;;
  ci <- getitem "check_in_date" (check_in validated_data) ;;
  let nights := days_between ci co in
  let total := total_price_for_nights l nights in
  Booking_objects_create (listing validated_data) (guest_ validated_data)
    (Some ci) (Some co) (Some total) (status_ validated_data).

(** [serializer.save] with keyword arguments, on a serializer without
    instance: the
    keyword arguments are merged into the validated data, then [create]. *)
Definition save (validated_data : Data) (kw_listing kw_guest : option Z)
  : M Booking :=
  create (mkData (listing_id validated_data) (check_in validated_data)
            (check_out validated_data) (status_ validated_data)
            (match kw_listing with Some l => Some l | None => listing validated_data end)
            (match kw_guest with Some g => Some g | None => guest_ validated_data end)).

End BookingSerializer.

(** Modelled from the spec: the HTTP-facing caller of the serializer is not
    among the sources.  Section 6 names the operation
    [createBooking(listingId, guestId, checkIn, checkOut)] and section 4.3
    orders it as validation, then price computation, then persistence: the
    serializer protocol [is_valid()] followed by [save(..)].  The listing and
    the guest of the new row are read-only serializer fields, so the caller
    hands them to [save]. *)
Definition createBooking (listingId guestId : Z) (checkIn checkOut : date)
  : M Booking :=
  v <- BookingSerializer.validate None
         (BookingSerializer.mkData (Some listingId) (Some checkIn)
            (Some checkOut) None None None) ;;
  BookingSerializer.save v (Some listingId) (Some guestId).

Module ReviewSerializer.

Record Data := mkData {
  listing_id : option Z;
  rating_ : option Z;
  comment_ : option string
}.

(** [Review.objects.filter(listing_id=.., user=..).exists()]. *)
Definition review_exists (lid user : Z) (s : Store) : bool :=
  existsb (fun r => (review_listing r =? lid) && (review_user r =? user))
          (reviews s).

(** [user] is [self.context['request'].user]. *)
Definition validate (user : Z) (data : Data) : M Data :=
  match listing_id data with
  | Some lid =>
      if negb (lid =? 0) then
        dup <- query (review_exists lid user) ;;
        if dup
        then raise (ValidationError "You have already reviewed this listing.")
        else ret data
      else ret data
  | None => ret data
  end.

Definition create (user : Z) (validated_data : Data) : M Review :=
  lid <- getitem "listing_id" (listing_id validated_data) ;;
  Review_objects_create (Some lid) user (rating_ validated_data)
    (comment_ validated_data).

End ReviewSerializer.

(** Modelled from the spec: [createReview(listingId, userId, rating,
    comment)] of section 6, whose caller is not among the sources: the review
    serializer's [is_valid()] followed by [save()]. *)
Definition createReview (listingId userId : Z) (rt : Z) (cm : string)
  : M Review :=
  v <- ReviewSerializer.validate userId
         (ReviewSerializer.mkData (Some listingId) (Some rt) (Some cm)) ;;
  ReviewSerializer.create userId v.

(** A Python number returned to the serializer: an int, or the float that
    true division produces.  A float is represented by the exact quotient
    that Python rounds to the nearest double. *)
Inductive PyNum :=
| PyInt (z : Z)
| PyFloat (q : Q).

(** [a / b] on ints. *)
Definition truediv (a b : Z) : M PyNum :=
  if b =? 0 then raise ZeroDivisionError
  else ret (PyFloat (inject_Z a / inject_Z b)).

Definition sum_Z (l : list Z) : Z := fold_right Z.add 0 l.

Module ListingSerializer.

(** [obj.reviews.all()]. *)
Definition reviews_of (obj : Listing) (s : Store) : list Review :=
  filter (fun r => review_listing r =? listing_pk obj) (reviews s).

Definition get_average_rating (obj : Listing) : M PyNum :=
  rs <- query (reviews_of obj) ;;
  match rs with
  | _ :: _ => truediv (sum_Z (map rating rs)) (Z.of_nat (List.length rs))
  | [] => ret (PyInt 0)
  end.

(** [get_total_reviews]: [obj.reviews.count()]. *)
Definition get_total_reviews (obj : Listing) : M Z :=
  rs <- query (reviews_of obj) ;;
  ret (Z.of_nat (List.length rs)).

End ListingSerializer.

(** ** seed.py *)

(** [random.choice(seq)]: the drawn index selects the element; an empty
    sequence raises IndexError. *)
Definition choice {A} (seq : list A) (draw : nat) : M A :=
  match nth_error seq (draw mod List.length seq)%nat with
  | Some a => ret a
  | None => raise IndexError
  end.

(** [round(d, 2)] on a Decimal. *)
Definition round2 (d : Decimal) : M Decimal :=
  match Dec.quantize Dec.prec d (-2) with
  | Some r => ret r
  | None => raise InvalidOperation
  end.

Module Command.

(** What one iteration of the listing loop draws: [ld_price] is
    [Decimal(random.uniform(45, 350))]. *)
Record ListingDraw := mkListingDraw {
  ld_price : Decimal;
  ld_owner : nat;
  ld_available : nat
}.

(** [fake.real_estate_type()]: Faker has no provider method of this name
    and [fake = Faker()] registers no further provider, so the attribute
    lookup raises AttributeError. *)
Definition fake_real_estate_type : M string := raise AttributeError.

(** One iteration of the listing loop.  The keyword arguments of
    [Listing.objects.create] are evaluated in order, the title first. *)
Definition create_listing_step (us : list Z) (d : ListingDraw) : M Listing :=
  _kind <- fake_real_estate_type ;;
  p <- round2 (ld_price d) ;;
  own <- choice us (ld_owner d) ;;
  av <- choice [true; true; true; false] (ld_available d) ;;
  Listing_objects_create p own av.

Fixpoint create_listings_loop (us : list Z) (draws : list ListingDraw)
  : M unit :=
  match draws with
  | [] => ret tt
  | d :: rest => create_listing_step us d ;;; create_listings_loop us rest
  end.

(** [_create_listings(count)], one draw per iteration. *)
Definition _create_listings (draws : list ListingDraw) : M unit :=
  us <- query users ;;
  create_listings_loop us draws.

(** What one iteration of the booking loop draws from [random] and
    [fake]. *)
Record BookingDraw := mkBookingDraw {
  bd_listing : nat;
  bd_start : date;
  bd_nights : Z;
  bd_guest : nat;
  bd_status : nat
}.

(** The draws of one iteration on day [today].
    [fake.date_between(start_date='-1y', end_date='-1m')]: Faker reads 'y'
    as 365.24 days and 'm' as minutes, and adding a timedelta to a date keeps
    its whole days, so the start date lies between 366 days and 1 day back.
    The night count is [random.randint(2, 14)]. *)
Definition possible_booking_draw (today : date) (d : BookingDraw) : Prop :=
  today - 366 <= bd_start d <= today - 1 /\ 2 <= bd_nights d <= 14.

Definition create_booking_step
    (available_listings : list Listing) (us : list Z) (d : BookingDraw)
  : M Booking :=
  l <- choice available_listings (bd_listing d) ;;
  let start_date := bd_start d in
  let nights := bd_nights d in
  let end_date := start_date + nights in
  let total := total_price_for_nights l nights in
  g <- choice us (bd_guest d) ;;
  p <- round2 total ;;
  st <- choice ["pending"; "confirmed"; "completed"] (bd_status d) ;;
  Booking_objects_create (Some (listing_pk l)) (Some g)
    (Some start_date) (Some end_date) (Some p) (Some st).

Fixpoint create_bookings_loop
    (available_listings : list Listing) (us : list Z)
    (draws : list BookingDraw) : M unit :=
  match draws with
  | [] => ret tt
  | d :: rest =>
      create_booking_step available_listings us d ;;;
      create_bookings_loop available_listings us rest
  end.

(** [_create_bookings(count)], one draw per iteration. *)
Definition _create_bookings (draws : list BookingDraw) : M unit :=
  available_listings <- query (fun s => filter is_available (listings s)) ;;
  us <- query users ;;
  match available_listings with
  | [] => ret tt
  | _ :: _ => create_bookings_loop available_listings us draws
  end.

Record ReviewDraw := mkReviewDraw {
  rd_listing : nat;
  rd_user : nat;
  rd_rating : Z;
  rd_comment : string
}.

Definition create_review_step
    (ls : list Listing) (us : list Z) (d : ReviewDraw) : M unit :=
  l <- choice ls (rd_listing d) ;;
  u <- choice us (rd_user d) ;;
  dup <- query (ReviewSerializer.review_exists (listing_pk l) u) ;;
  if dup then ret tt
  else
    Review_objects_create (Some (listing_pk l)) u (Some (rd_rating d))
      (Some (rd_comment d)) ;;;
    ret tt.

Fixpoint create_reviews_loop
    (ls : list Listing) (us : list Z) (draws : list ReviewDraw) : M unit :=
  match draws with
  | [] => ret tt
  | d :: rest =>
      create_review_step ls us d ;;;
      create_reviews_loop ls us rest
  end.

(** [_create_reviews(count)], one draw per iteration. *)
Definition _create_reviews (draws : list ReviewDraw) : M unit :=
  ls <- query listings ;;
  us <- query users ;;
  match ls with
  | [] => ret tt
  | _ :: _ => create_reviews_loop ls us draws
  end.

End Command.

(** ** Write paths and the properties stated about the store *)

(** The operations that write to the store: the two serializer request
    paths, with whatever data and keyword arguments the caller supplies, and
    the three seeding loops. *)
Inductive Op :=
| BookingRequest (data : BookingSerializer.Data) (kw_listing kw_guest : option Z)
| ReviewRequest (user : Z) (data : ReviewSerializer.Data)
| SeedListings (draws : list Command.ListingDraw)
| SeedBookings (draws : list Command.BookingDraw)
| SeedReviews (draws : list Command.ReviewDraw).

Definition booking_request
    (data : BookingSerializer.Data) (kw_listing kw_guest : option Z)
  : M Booking :=
  v <- BookingSerializer.validate None data ;;
  BookingSerializer.save v kw_listing kw_guest.

Definition review_request (user : Z) (data : ReviewSerializer.Data) : M Review :=
  v <- ReviewSerializer.validate user data ;;
  ReviewSerializer.create user v.

(** The store after an operation, whether it returned or raised. *)
Definition exec (o : Op) (s : Store) : Store :=
  match o with
  | BookingRequest d l g => snd (booking_request d l g s)
  | ReviewRequest u d => snd (review_request u d s)
  | SeedListings ds => snd (Command._create_listings ds s)
  | SeedBookings ds => snd (Command._create_bookings ds s)
  | SeedReviews ds => snd (Command._create_reviews ds s)
  end.

Definition exec_all (ops : list Op) (s : Store) : Store :=
  fold_left (fun st o => exec o st) ops s.

(** A computation preserves a property of the store, whether it returns or
    raises. *)
Definition preserves {A : Type} (P : Store -> Prop) (m : M A) : Prop :=
  forall s, P s -> P (snd (m s)).

(** The exact product of a decimal and an integer: no digit is dropped. *)
Definition exact_product (a : Decimal) (n : Z) : Decimal :=
  Dec.mk (xorb (Dec.dsign a) (n <? 0)) (Dec.dint a * Z.abs_N n) (Dec.dexp a).

(** The request [createBooking] sends, with an optional status field. *)
Definition create_booking_op
    (listingId guestId : Z) (checkIn checkOut : date) (st : option string) : Op :=
  BookingRequest
    (BookingSerializer.mkData (Some listingId) (Some checkIn) (Some checkOut)
       st None None)
    (Some listingId) (Some guestId).

Inductive is_create_booking : Op -> Prop :=
| is_create_booking_intro listingId guestId checkIn checkOut st :
    is_create_booking (create_booking_op listingId guestId checkIn checkOut st).

(** A booking that blocks others: status pending or confirmed. *)
Definition active (b : Booking) : bool :=
  in_list (status b) ["pending"; "confirmed"].

(** Half-open overlap of the date ranges of two bookings. *)
Definition ranges_overlap (b1 b2 : Booking) : Prop :=
  check_in_date b1 < check_out_date b2 /\ check_out_date b1 > check_in_date b2.

(** No two distinct active bookings of one listing overlap. *)
Definition no_double_booking (s : Store) : Prop :=
  forall b1 b2,
    In b1 (bookings s) -> In b2 (bookings s) ->
    booking_listing b1 = booking_listing b2 ->
    active b1 = true -> active b2 = true ->
    ranges_overlap b1 b2 ->
    booking_pk b1 = booking_pk b2.

(** At most one review per (listing, user) pair. *)
Definition one_review_per_pair (s : Store) : Prop :=
  NoDup (map (fun r => (review_listing r, review_user r)) (reviews s)).

(** Primary keys of listings are the positive, pairwise distinct values an
    auto-incrementing key takes. *)
Definition listing_keys_ok (s : Store) : Prop :=
  NoDup (map listing_pk (listings s))
  /\ Forall (fun l => 0 < listing_pk l) (listings s).

(** Prices as a [DecimalField(max_digits=10, decimal_places=2)] column
    holds them: two decimal places, at most ten digits. *)
Definition price_columns_ok (s : Store) : Prop :=
  Forall (fun l => Dec.dexp (price_per_night l) = -2
                   /\ Z.of_N (Dec.dint (price_per_night l)) < 10 ^ 10)
         (listings s).

(** The two messages [BookingSerializer.validate] raises. *)
Definition msg_dates : string :=
  "This listing is not available for the selected dates.".

Definition msg_unavailable : string := "This listing is not available.".

(** ** Concrete stores used in the examples *)

(** One user, one available listing at 100.00 per night, no booking. *)
Definition demo_listing : Listing := mkListing 1 (Dec.mk false 10000 (-2)) true 7.

Definition demo_store : Store := mkStore [7] [demo_listing] [] [].

(** The same with a confirmed booking from 2024-03-01 to 2024-03-05. *)
Definition demo_booking : Booking :=
  mkBooking 1 1 7 (mkdate 2024 3 1) (mkdate 2024 3 5) (Dec.mk false 40000 (-2))
    "confirmed".

Definition booked_store : Store := mkStore [7] [demo_listing] [demo_booking] [].

(** The listing taken off the market. *)
Definition closed_listing : Listing := mkListing 1 (Dec.mk false 10000 (-2)) false 7.

Definition closed_store : Store := mkStore [7] [closed_listing] [] [].

(** The listing of the examples with two reviews, rated 4 and 5. *)
Definition reviewed_store : Store :=
  mkStore [7; 8] [demo_listing] []
    [mkReview 1 1 7 4 "Good"; mkReview 2 1 8 5 "Excellent"].


(** Two iterations of the seeding loop that draw the same listing, the same
    start date and the status pending. *)
Definition same_draw : Command.BookingDraw :=
  Command.mkBookingDraw 0 (mkdate 2024 1 10) 3 0 0.

Definition twice_seeded : Store :=
  exec_all [SeedBookings [same_draw; same_draw]] demo_store.

(** ** Further notions used in the properties *)

(** The ordinals of [date.min] and [date.max]: every date object lies
    between them. *)
Definition valid_date (d : date) : Prop := 1 <= d <= 3652059.

(** The decimal with the opposite sign. *)
Definition negate (d : Decimal) : Decimal :=
  Dec.mk (negb (Dec.dsign d)) (Dec.dint d) (Dec.dexp d).

(** Every foreign key names a stored row: listings have a stored owner,
    bookings a stored listing and guest, reviews a stored listing and user. *)
Definition references_ok (s : Store) : Prop :=
  Forall (fun l => In (owner l) (users s)) (listings s)
  /\ Forall (fun b => In (booking_listing b) (map listing_pk (listings s))
                      /\ In (guest b) (users s)) (bookings s)
  /\ Forall (fun r => In (review_listing r) (map listing_pk (listings s))
                      /\ In (review_user r) (users s)) (reviews s).

(** What the seeding loop leaves in a booking row: a listing that was
    available and a guest that existed when the loop started, one of the
    three statuses it draws from, and between 2 and 14 nights. *)
Definition seeded_booking (s : Store) (b : Booking) : Prop :=
  (exists l, In l (listings s) /\ is_available l = true
             /\ booking_listing b = listing_pk l)
  /\ In (guest b) (users s)
  /\ In (status b) ["pending"; "confirmed"; "completed"]
  /\ 2 <= nights_booked b <= 14.

(** The night count of one iteration: [random.randint(2, 14)]. *)
Definition drawn_nights_ok (d : Command.BookingDraw) : Prop :=
  2 <= Command.bd_nights d <= 14.

(** Every listing price has two decimal places and, times the 14 nights a
    seeded booking can last, still fits the ten digits of the total price
    column. *)
Definition seed_prices_fit (s : Store) : Prop :=
  Forall (fun l => Dec.dexp (price_per_night l) = -2
                   /\ Z.of_N (Dec.dint (price_per_night l)) * 14 < 10 ^ 10)
         (listings s).

(** The ratings of the reviews of listing [lid], read off the review
    table row by row. *)
Fixpoint ratings_of_listing (lid : Z) (rs : list Review) : list Z :=
  match rs with
  | [] => []
  | r :: rest =>
      if review_listing r =? lid
      then rating r :: ratings_of_listing lid rest
      else ratings_of_listing lid rest
  end.

(** Two listings with reviews: listing 1 rated 4 and 5, listing 2 rated 1;
    [unreviewed_listing] has none. *)
Definition second_listing : Listing := mkListing 2 (Dec.mk false 25050 (-2)) true 8.

Definition unreviewed_listing : Listing := mkListing 3 (Dec.mk false 9900 (-2)) true 8.

Definition mixed_reviews_store : Store :=
  mkStore [7; 8] [demo_listing; second_listing; unreviewed_listing] []
    [mkReview 1 1 7 4 "Good"; mkReview 2 2 7 1 "Poor";
     mkReview 3 1 8 5 "Excellent"].

(** A store with a second user and a second, closed, listing. *)
Definition two_listing_store : Store :=
  mkStore [7; 8] [demo_listing; mkListing 2 (Dec.mk false 25050 (-2)) false 8]
    [demo_booking] [mkReview 1 1 7 4 "Good"].

(** * Properties *)

(** ** Decimal arithmetic *)

Section DecimalFacts.


Lemma pow10_pos (k : Z) : 0 <= k -> 0 < 10 ^ k.
Proof. intros Hk. apply Z.pow_pos_nonneg; lia. Qed.

Lemma pow10_succ (k : Z) : 0 <= k -> 10 ^ (k + 1) = 10 * 10 ^ k.
Proof. intros Hk. rewrite Z.pow_add_r by lia. lia. Qed.

(** [ndigits_fuel] counts the decimal digits once the fuel covers the
    binary length. *)
Lemma ndigits_fuel_spec (fuel : nat) :
  forall n : N,
    (0 < n)%N -> Z.of_N n < 2 ^ Z.of_nat fuel ->
    1 <= Dec.ndigits_fuel fuel n
    /\ 10 ^ (Dec.ndigits_fuel fuel n - 1) <= Z.of_N n
       < 10 ^ Dec.ndigits_fuel fuel n.
Proof.
  induction fuel as [|f IH]; intros n Hpos Hlt.
  - simpl in Hlt. lia.
  - cbn [Dec.ndigits_fuel]. destruct (N.ltb_spec n 10) as [Hs|Hs].
    + simpl. lia.
    + assert (Hq : Z.of_N (n / 10) = Z.of_N n / 10)
        by (rewrite N2Z.inj_div; reflexivity).
      assert (H10 : 10 <= Z.of_N n) by lia.
      assert (Hq1 : 1 <= Z.of_N n / 10)
        by (apply Z.div_le_lower_bound; lia).
      assert (Hq2 : Z.of_N n / 10 < 2 ^ Z.of_nat f).
      { apply Z.div_lt_upper_bound; [lia|].
        rewrite Nat2Z.inj_succ, Z.pow_succ_r in Hlt by lia. lia. }
      destruct (IH (n / 10)%N) as [Hd [Hlo Hhi]]; [lia | lia |].
      rewrite Hq in Hlo, Hhi.
      set (d := Dec.ndigits_fuel f (n / 10)) in *.
      replace (1 + d - 1) with ((d - 1) + 1) by lia.
      replace (1 + d) with (d + 1) by lia.
      rewrite !pow10_succ by lia.
      pose proof (Z.mul_div_le (Z.of_N n) 10 ltac:(lia)).
      pose proof (Z.mod_pos_bound (Z.of_N n) 10 ltac:(lia)).
      pose proof (Z.div_mod (Z.of_N n) 10 ltac:(lia)).
      lia.
Qed.

Lemma ndigits_spec (n : N) :
  (0 < n)%N ->
  1 <= Dec.ndigits n
  /\ 10 ^ (Dec.ndigits n - 1) <= Z.of_N n < 10 ^ Dec.ndigits n.
Proof.
  intros Hpos. unfold Dec.ndigits. apply ndigits_fuel_spec; [assumption|].
  pose proof (N.size_gt n) as H.
  apply N2Z.inj_lt in H. rewrite N2Z.inj_pow in H.
  rewrite N_nat_Z. exact H.
Qed.

(** The digit count is bounded by any power of ten above the number. *)
Lemma ndigits_le (n : N) (k : Z) :
  (0 < n)%N -> Z.of_N n < 10 ^ k -> Dec.ndigits n <= k.
Proof.
  intros Hpos Hlt. destruct (ndigits_spec n Hpos) as [Hd [Hlo _]].
  destruct (Z_le_gt_dec (Dec.ndigits n) k) as [|Hgt]; [assumption|exfalso].
  assert (0 <= k).
  { destruct (Z_le_gt_dec 0 k); [assumption|].
    rewrite Z.pow_neg_r in Hlt by lia. lia. }
  assert (10 ^ k <= 10 ^ (Dec.ndigits n - 1))
    by (apply Z.pow_le_mono_r; lia).
  lia.
Qed.


(** A coefficient within the context precision is returned as it is. *)
Lemma fix_exact (sg : bool) (n : N) (e : Z) :
  Z.of_N n < 10 ^ Dec.prec -> Dec.fix_ (Dec.mk sg n e) = Dec.mk sg n e.
Proof.
  intros Hlt. unfold Dec.fix_. cbn [Dec.dint Dec.dexp Dec.dsign].
  destruct (N.eqb_spec n 0) as [|Hnz]; [reflexivity|].
  assert (Hd : Dec.ndigits n <= Dec.prec) by (apply ndigits_le; lia).
  destruct (Z.ltb_spec e (Dec.ndigits n + e - Dec.prec)); [lia|reflexivity].
Qed.



End DecimalFacts.

Section QuantizeFacts.

(** A successful quantization has the requested exponent and fits the
    precision. *)
Lemma quantize_result (p : Z) (d r : Decimal) (e : Z) :
  0 <= p -> Dec.quantize p d e = Some r ->
  Dec.dexp r = e /\ Z.of_N (Dec.dint r) < 10 ^ p /\ Dec.dsign r = Dec.dsign d.
Proof.
  intros Hp. unfold Dec.quantize.
  destruct (N.eqb_spec (Dec.dint d) 0) as [Hz|Hnz].
  - intros [= <-]. cbn [Dec.dexp Dec.dint Dec.dsign].
    pose proof (pow10_pos p Hp). repeat split. change (Z.of_N 0) with 0. lia.
  - destruct (p <? _); [discriminate|].
    destruct (Z.ltb_spec p (Dec.ndigits (Dec.dint (Dec.rescale d e)))) as [|Hd];
      [discriminate|].
    intros [= <-].
    assert (Hexp : Dec.dexp (Dec.rescale d e) = e
                   /\ Dec.dsign (Dec.rescale d e) = Dec.dsign d).
    { unfold Dec.rescale. destruct (_ =? _)%N; [now cbn|].
      destruct (_ <=? _); [now cbn|]. destruct (_ <? _); now cbn. }
    destruct Hexp as [-> ->]. repeat split.
    destruct (N.eq_dec (Dec.dint (Dec.rescale d e)) 0) as [->|Hpos].
    + pose proof (pow10_pos p Hp). lia.
    + destruct (ndigits_spec (Dec.dint (Dec.rescale d e))) as [_ [_ Hhi]];
        [lia|].
      assert (10 ^ Dec.ndigits (Dec.dint (Dec.rescale d e)) <= 10 ^ p)
        by (apply Z.pow_le_mono_r; lia).
      lia.
Qed.


Lemma quantize_fits (p : Z) (sg : bool) (n : N) (e : Z) :
  0 <= p -> Z.of_N n < 10 ^ p ->
  Dec.quantize p (Dec.mk sg n e) e = Some (Dec.mk sg n e).
Proof.
  intros Hp Hlt.
  unfold Dec.quantize, Dec.rescale. cbn [Dec.dint Dec.dexp Dec.dsign].
  destruct (N.eqb_spec n 0) as [->|Hnz]; [reflexivity|].
  assert (Hd : Dec.ndigits n <= p) by (apply ndigits_le; lia).
  destruct (Z.ltb_spec p (Dec.ndigits n + e - e)); [lia|].
  rewrite Z.leb_refl, Z.sub_diag. cbn [Dec.dint].
  change (Dec.pow10 0) with 1%N. rewrite N.mul_1_r.
  destruct (Z.ltb_spec p (Dec.ndigits n)); [lia|reflexivity].
Qed.

Lemma mul_of_int_exact (a : Decimal) (n : Z) :
  Z.of_N (Dec.dint a) * Z.abs n < 10 ^ Dec.prec ->
  Dec.mul a (Dec.of_int n) = exact_product a n.
Proof.
  intros Hlt. unfold Dec.mul, Dec.of_int, exact_product.
  cbn [Dec.dint Dec.dexp Dec.dsign]. rewrite Z.add_0_r.
  apply fix_exact. rewrite N2Z.inj_mul, N2Z.inj_abs_N. exact Hlt.
Qed.


(** The exact product denotes the product of the denoted numbers. *)
Lemma exact_product_value (a : Decimal) (n : Z) :
  (Dec.value (exact_product a n) == Dec.value a * inject_Z n)%Q.
Proof.
  unfold Dec.value, exact_product. cbn [Dec.dint Dec.dexp Dec.dsign].
  rewrite N2Z.inj_mul, N2Z.inj_abs_N, inject_Z_mult.
  destruct (Dec.dsign a), (Z.ltb_spec n 0) as [Hn|Hn]; cbn [xorb];
    [rewrite Z.abs_neq by lia | rewrite Z.abs_eq by lia
    |rewrite Z.abs_neq by lia | rewrite Z.abs_eq by lia];
    try rewrite inject_Z_opp; ring.
Qed.

End QuantizeFacts.

(** ** The booking validity check *)

Ltac run_py :=
  unfold getitem, bind, query, ret, raise; cbv beta iota; cbn [fst snd].

Lemma active_status_in (b : Booking) :
  in_list (status b) ["confirmed"; "pending"] = active b.
Proof.
  unfold active, in_list. cbn [existsb]. rewrite !orb_false_r. apply orb_comm.
Qed.

Lemma conflicts_iff (lid : Z) (ci co : date) (b : Booking) :
  BookingSerializer.conflicts lid ci co b = true
  <-> booking_listing b = lid /\ active b = true
      /\ check_in_date b < co /\ check_out_date b > ci.
Proof.
  unfold BookingSerializer.conflicts. rewrite active_status_in.
  rewrite !andb_true_iff, Z.eqb_eq, Z.ltb_lt, Z.gtb_lt. intuition lia.
Qed.

(** With a listing id that is not 0 and both dates present, [validate] is
    decided by the overlap query and then by the availability query. *)
Lemma validate_checked (inst : option Booking) (lid : Z) (ci co : date)
      (st : option string) (l g : option Z) (s : Store) :
  lid <> 0 ->
  BookingSerializer.validate inst
    (BookingSerializer.mkData (Some lid) (Some ci) (Some co) st l g) s
  = match BookingSerializer.overlapping_bookings inst lid ci co s with
    | _ :: _ => (Raise (ValidationError msg_dates), s)
    | [] =>
        match BookingSerializer.available_listing lid s with
        | None => (Raise (ValidationError msg_unavailable), s)
        | Some _ =>
            (Ok (BookingSerializer.mkData (Some lid) (Some ci) (Some co) st l g), s)
        end
    end.
Proof.
  intros Hlid. unfold BookingSerializer.validate.
  cbn [BookingSerializer.listing_id BookingSerializer.check_in
       BookingSerializer.check_out truthy_int truthy_date].
  destruct (Z.eqb_spec lid 0) as [|_]; [contradiction|].
  cbn [negb andb]. run_py.
  destruct (BookingSerializer.overlapping_bookings inst lid ci co s);
    [|reflexivity].
  destruct (BookingSerializer.available_listing lid s); reflexivity.
Qed.

(** [validate] only reads the store. *)
Lemma validate_store (inst : option Booking) (data : BookingSerializer.Data)
      (s : Store) :
  snd (BookingSerializer.validate inst data s) = s.
Proof.
  unfold BookingSerializer.validate.
  destruct (truthy_int _ && truthy_date _ && truthy_date _); [|reflexivity].
  destruct (BookingSerializer.listing_id data); [|reflexivity].
  destruct (BookingSerializer.check_in data); [|reflexivity].
  destruct (BookingSerializer.check_out data); [|reflexivity].
  run_py.
  destruct (BookingSerializer.overlapping_bookings _ _ _ _ s); [|reflexivity].
  destruct (BookingSerializer.available_listing _ s); reflexivity.
Qed.

Lemma overlapping_nonempty_iff (lid : Z) (ci co : date) (s : Store) :
  BookingSerializer.overlapping_bookings None lid ci co s <> []
  <-> exists b, In b (bookings s) /\ booking_listing b = lid /\ active b = true
                /\ check_in_date b < co /\ check_out_date b > ci.
Proof.
  unfold BookingSerializer.overlapping_bookings. split.
  - intros Hne.
    destruct (filter _ (filter _ _)) as [|b rest] eqn:E; [contradiction|].
    assert (Hin : In b (b :: rest)) by (left; reflexivity).
    rewrite <- E in Hin. apply filter_In in Hin. destruct Hin as [Hin _].
    apply filter_In in Hin. destruct Hin as [Hin Hc].
    apply conflicts_iff in Hc. exists b. tauto.
  - intros [b [Hin Hc]] E.
    assert (Hb : In b (filter (fun _ => true)
                         (filter (BookingSerializer.conflicts lid ci co) (bookings s)))).
    { apply filter_In. split; [|reflexivity].
      apply filter_In. split; [assumption|]. apply conflicts_iff. tauto. }
    rewrite E in Hb. exact Hb.
Qed.

(** C1. The overlap check is half-open: an existing pending or confirmed
    booking of the listing conflicts with the candidate range from [ci] to
    [co] exactly when it checks in before [co] and checks out after [ci], and
    [validate] raises the dates message exactly when such a booking is
    stored; a request that checks in on the day a booking checks out never
    conflicts with it.  Against a confirmed booking from 2024-03-01 to 2024-03-05, the
    request from 03-05 to 03-08 is accepted and booked, the request from
    03-04 to 03-08 is rejected. *)
Theorem booking_overlap_half_open :
  (forall (lid : Z) (ci co : date) (b : Booking),
      booking_listing b = lid -> active b = true ->
      (BookingSerializer.conflicts lid ci co b = true
       <-> check_in_date b < co /\ check_out_date b > ci))
  /\ (forall (lid : Z) (co : date) (b : Booking),
         BookingSerializer.conflicts lid (check_out_date b) co b = false)
  /\ (forall (s : Store) (lid : Z) (ci co : date) (st : option string)
             (l g : option Z),
         lid <> 0 ->
         (fst (BookingSerializer.validate None
                 (BookingSerializer.mkData (Some lid) (Some ci) (Some co) st l g) s)
          = Raise (ValidationError msg_dates)
          <-> exists b, In b (bookings s) /\ booking_listing b = lid
                        /\ active b = true
                        /\ check_in_date b < co /\ check_out_date b > ci))
  /\ fst (createBooking 1 7 (mkdate 2024 3 5) (mkdate 2024 3 8) booked_store)
     = Ok (mkBooking 2 1 7 (mkdate 2024 3 5) (mkdate 2024 3 8)
             (Dec.mk false 30000 (-2)) "pending")
  /\ createBooking 1 7 (mkdate 2024 3 4) (mkdate 2024 3 8) booked_store
     = (Raise (ValidationError msg_dates), booked_store).
Proof.
  split; [|split; [|split; [|split]]].
  - intros lid ci co b Hl Ha. rewrite conflicts_iff. tauto.
  - intros lid co b. unfold BookingSerializer.conflicts.
    rewrite Z.gtb_ltb, Z.ltb_irrefl. apply andb_false_r.
  - intros s lid ci co st l g Hlid.
    rewrite validate_checked by assumption.
    rewrite <- overlapping_nonempty_iff.
    destruct (BookingSerializer.overlapping_bookings None lid ci co s) eqn:E.
    + destruct (BookingSerializer.available_listing lid s); cbn [fst];
        split; try congruence; discriminate.
    + cbn [fst]. split; [discriminate|reflexivity].
  - vm_compute. reflexivity.
  - vm_compute. reflexivity.
Qed.

(** The first two parts of C1 at the confirmed booking of the example and
    the request from 2024-03-04 to 2024-03-08. *)
Lemma booking_overlap_half_open_witness :
  (BookingSerializer.conflicts 1 (mkdate 2024 3 4) (mkdate 2024 3 8) demo_booking
   = true
   <-> check_in_date demo_booking < mkdate 2024 3 8
       /\ check_out_date demo_booking > mkdate 2024 3 4)
  /\ (fst (BookingSerializer.validate None
             (BookingSerializer.mkData (Some 1) (Some (mkdate 2024 3 4))
                (Some (mkdate 2024 3 8)) None None None) booked_store)
      = Raise (ValidationError msg_dates)
      <-> exists b, In b (bookings booked_store) /\ booking_listing b = 1
                    /\ active b = true
                    /\ check_in_date b < mkdate 2024 3 8
                    /\ check_out_date b > mkdate 2024 3 4).
Proof.
  split.
  - apply (proj1 booking_overlap_half_open 1 (mkdate 2024 3 4)
             (mkdate 2024 3 8) demo_booking); reflexivity.
  - apply (proj1 (proj2 (proj2 booking_overlap_half_open)) booked_store 1).
    discriminate.
Defined.

Lemma overlapping_skips_inactive (inst : option Booking) (lid : Z) (ci co : date)
      (us : list Z) (ls : list Listing) (rs : list Review)
      (before after : list Booking) (b : Booking) :
  active b = false ->
  BookingSerializer.overlapping_bookings inst lid ci co
    (mkStore us ls (before ++ b :: after) rs)
  = BookingSerializer.overlapping_bookings inst lid ci co
      (mkStore us ls (before ++ after) rs).
Proof.
  intros Hb. unfold BookingSerializer.overlapping_bookings. cbn [bookings].
  rewrite !filter_app. cbn [filter].
  replace (BookingSerializer.conflicts lid ci co b) with false; [reflexivity|].
  unfold BookingSerializer.conflicts. rewrite active_status_in, Hb.
  now rewrite andb_false_r.
Qed.

(** C3. A stored booking whose status is neither pending nor confirmed
    (cancelled in particular) has no influence on the validity check: with
    or without that row, for every listing, candidate range and request
    data, [validate] gives the same answer. *)
Theorem cancelled_booking_never_blocks :
  forall (inst : option Booking) (data : BookingSerializer.Data)
         (us : list Z) (ls : list Listing) (rs : list Review)
         (before after : list Booking) (b : Booking),
    status b = "cancelled" \/ active b = false ->
    fst (BookingSerializer.validate inst data
           (mkStore us ls (before ++ b :: after) rs))
    = fst (BookingSerializer.validate inst data
             (mkStore us ls (before ++ after) rs)).
Proof.
  intros inst data us ls rs before after b Hst.
  assert (Hb : active b = false).
  { destruct Hst as [Hc|Hb]; [|exact Hb]. unfold active. now rewrite Hc. }
  unfold BookingSerializer.validate.
  destruct (truthy_int _ && truthy_date _ && truthy_date _); [|reflexivity].
  destruct (BookingSerializer.listing_id data) as [lid|]; [|reflexivity].
  destruct (BookingSerializer.check_in data) as [ci|]; [|reflexivity].
  destruct (BookingSerializer.check_out data) as [co|]; [|reflexivity].
  run_py. rewrite (overlapping_skips_inactive inst lid ci co us ls rs before after b Hb).
  destruct (BookingSerializer.overlapping_bookings _ _ _ _ _); [|reflexivity].
  unfold BookingSerializer.available_listing. cbn [listings].
  destruct (hd_error _); reflexivity.
Qed.

(** C3 at a cancelled booking over the very dates that are requested: the
    request is accepted. *)
Lemma cancelled_booking_never_blocks_witness :
  fst (BookingSerializer.validate None
         (BookingSerializer.mkData (Some 1) (Some (mkdate 2024 3 1))
            (Some (mkdate 2024 3 5)) None None None)
         (mkStore [7] [demo_listing]
            ([] ++ mkBooking 1 1 7 (mkdate 2024 3 1) (mkdate 2024 3 5)
                     (Dec.mk false 40000 (-2)) "cancelled" :: []) []))
  = Ok (BookingSerializer.mkData (Some 1) (Some (mkdate 2024 3 1))
          (Some (mkdate 2024 3 5)) None None None).
Proof.
  rewrite (cancelled_booking_never_blocks None _ [7] [demo_listing] [] [] []
             (mkBooking 1 1 7 (mkdate 2024 3 1) (mkdate 2024 3 5)
                (Dec.mk false 40000 (-2)) "cancelled")).
  - reflexivity.
  - left. reflexivity.
Defined.

(** ** Outcomes of the create path *)

Lemma Listing_objects_get_store (pk : Z) (s : Store) :
  snd (Listing_objects_get pk s) = s.
Proof.
  unfold Listing_objects_get.
  destruct (filter _ _) as [|l [|l' rest]]; reflexivity.
Qed.

Lemma Listing_objects_get_Ok (pk : Z) (s : Store) (l : Listing) :
  fst (Listing_objects_get pk s) = Ok l ->
  In l (listings s) /\ listing_pk l = pk
  /\ filter (fun x => listing_pk x =? pk) (listings s) = [l].
Proof.
  unfold Listing_objects_get.
  destruct (filter _ _) as [|l0 [|l' rest]] eqn:E; cbn [fst]; try discriminate.
  intros [= <-].
  assert (Hin : In l0 (filter (fun x => listing_pk x =? pk) (listings s)))
    by (rewrite E; left; reflexivity).
  apply filter_In in Hin. destruct Hin as [Hin Hpk].
  apply Z.eqb_eq in Hpk. auto.
Qed.

(** [Booking.objects.create] either raises and leaves the store as it was,
    or appends exactly the row it returns. *)
Lemma Booking_objects_create_cases
      (l g : option Z) (ci co : option date) (p : option Decimal)
      (st : option string) (s : Store) :
  (exists e, Booking_objects_create l g ci co p st s = (Raise e, s))
  \/ (exists lk gk i o pr q,
         l = Some lk /\ g = Some gk /\ ci = Some i /\ co = Some o /\ p = Some pr
         /\ Dec.quantize 10 pr (-2) = Some q
         /\ Booking_objects_create l g ci co p st s
            = (Ok (mkBooking (next_pk (map booking_pk (bookings s))) lk gk i o q
                     (match st with Some x => x | None => "pending" end)),
               add_booking s
                 (mkBooking (next_pk (map booking_pk (bookings s))) lk gk i o q
                    (match st with Some x => x | None => "pending" end)))).
Proof.
  unfold Booking_objects_create.
  destruct l as [lk|]; [|left; eexists; reflexivity].
  destruct g as [gk|]; [|left; eexists; reflexivity].
  destruct ci as [i|]; [|left; eexists; reflexivity].
  destruct co as [o|]; [|left; eexists; reflexivity].
  destruct p as [pr|]; [|left; eexists; reflexivity].
  unfold adapt_decimalfield_value. run_py. change (- (2)) with (-2).
  destruct (Dec.quantize 10 pr (-2)) as [q|] eqn:Eq;
    [|left; eexists; reflexivity].
  destruct (negb _); [left; eexists; reflexivity|].
  right. exists lk, gk, i, o, pr, q. repeat split; first [assumption|reflexivity].
Qed.

(** [BookingSerializer.create] either raises and leaves the store as it
    was, or appends the booking it returns, priced from the listing that
    [listing_id] names. *)
Lemma create_cases (vd : BookingSerializer.Data) (s : Store) :
  (exists e, BookingSerializer.create vd s = (Raise e, s))
  \/ (exists lid l ci co lk gk q,
         BookingSerializer.listing_id vd = Some lid
         /\ fst (Listing_objects_get lid s) = Ok l
         /\ BookingSerializer.check_in vd = Some ci
         /\ BookingSerializer.check_out vd = Some co
         /\ BookingSerializer.listing vd = Some lk
         /\ BookingSerializer.guest_ vd = Some gk
         /\ Dec.quantize 10 (total_price_for_nights l (days_between ci co)) (-2)
            = Some q
         /\ BookingSerializer.create vd s
            = (Ok (mkBooking (next_pk (map booking_pk (bookings s))) lk gk ci co q
                     (match BookingSerializer.status_ vd with
                      | Some x => x
                      | None => "pending"
                      end)),
               add_booking s
                 (mkBooking (next_pk (map booking_pk (bookings s))) lk gk ci co q
                    (match BookingSerializer.status_ vd with
                     | Some x => x
                     | None => "pending"
                     end)))).
Proof.
  unfold BookingSerializer.create.
  destruct (BookingSerializer.listing_id vd) as [lid|];
    [|left; eexists; reflexivity].
  run_py.
  pose proof (Listing_objects_get_store lid s) as Hs.
  destruct (Listing_objects_get lid s) as [[l|e] s'] eqn:El; cbn [snd] in Hs;
    subst s'; [|left; eexists; reflexivity].
  destruct (BookingSerializer.check_out vd) as [co|];
    [|left; eexists; reflexivity].
  destruct (BookingSerializer.check_in vd) as [ci|];
    [|left; eexists; reflexivity].
  destruct (Booking_objects_create_cases
              (BookingSerializer.listing vd) (BookingSerializer.guest_ vd)
              (Some ci) (Some co)
              (Some (total_price_for_nights l (days_between ci co)))
              (BookingSerializer.status_ vd) s)
    as [[e He]|[lk [gk [i [o [pr [q [Hl [Hg [Hi [Ho [Hp [Hq Hc]]]]]]]]]]]]].
  - left. exists e. exact He.
  - right. injection Hi as <-. injection Ho as <-. injection Hp as <-.
    exists lid, l, ci, co, lk, gk, q. rewrite Hc.
    repeat split; try first [assumption|reflexivity].
    now rewrite El.
Qed.

(** A failed booking request (validation, lookup or persistence) writes
    nothing. *)
Lemma booking_request_raise (data : BookingSerializer.Data)
      (kl kg : option Z) (s : Store) (e : Exn) :
  fst (booking_request data kl kg s) = Raise e ->
  snd (booking_request data kl kg s) = s.
Proof.
  unfold booking_request, bind.
  pose proof (validate_store None data s) as Hv.
  destruct (BookingSerializer.validate None data s) as [[v|e'] s'];
    cbn [snd] in Hv; subst s'; [|reflexivity].
  unfold BookingSerializer.save.
  match goal with |- context [BookingSerializer.create ?d s] =>
    destruct (create_cases d s) as [[e' He]|[? [? [? [? [? [? [? H]]]]]]]]
  end.
  - rewrite He. reflexivity.
  - destruct H as (_ & _ & _ & _ & _ & _ & _ & Hc). rewrite Hc. discriminate.
Qed.

Lemma createBooking_as_request (lid gid : Z) (ci co : date) :
  createBooking lid gid ci co
  = booking_request
      (BookingSerializer.mkData (Some lid) (Some ci) (Some co) None None None)
      (Some lid) (Some gid).
Proof. reflexivity. Qed.

(** ** Unavailable listings, side effects, skipped checks *)

Lemma NoDup_map_eq {A B : Type} (f : A -> B) (l : list A) (a b : A) :
  NoDup (map f l) -> In a l -> In b l -> f a = f b -> a = b.
Proof.
  induction l as [|x l IH]; cbn [map In]; intros Hnd Ha Hb Hf; [contradiction|].
  inversion Hnd as [|? ? Hnotin Hnd']; subst.
  destruct Ha as [->|Ha], Hb as [->|Hb]; auto.
  - exfalso. apply Hnotin. rewrite Hf. now apply in_map.
  - exfalso. apply Hnotin. rewrite <- Hf. now apply in_map.
Qed.

Lemma filter_none {A : Type} (f : A -> bool) (l : list A) :
  (forall x, In x l -> f x = false) -> filter f l = [].
Proof.
  induction l as [|x l IH]; intros H; [reflexivity|].
  cbn [filter]. rewrite (H x (or_introl eq_refl)).
  apply IH. intros y Hy. apply H. now right.
Qed.

Lemma unavailable_listing_not_found (s : Store) (l : Listing) :
  listing_keys_ok s -> In l (listings s) -> is_available l = false ->
  BookingSerializer.available_listing (listing_pk l) s = None
  /\ listing_pk l <> 0.
Proof.
  intros [Hnd Hpos] Hin Hav. split.
  - unfold BookingSerializer.available_listing. rewrite filter_none; [reflexivity|].
    intros x Hx. destruct (Z.eqb_spec (listing_pk x) (listing_pk l)) as [Heq|];
      [|reflexivity].
    rewrite (NoDup_map_eq listing_pk (listings s) x l Hnd Hx Hin Heq).
    exact Hav.
  - rewrite Forall_forall in Hpos. specialize (Hpos l Hin). lia.
Qed.

(** C4. Creating a booking on a listing whose availability flag is false
    fails with a validation error carrying one of the two availability
    messages, whatever the date range and whatever bookings exist, and the
    store is left as it was. *)
Theorem unavailable_listing_always_rejected :
  forall (s : Store) (l : Listing) (guestId : Z) (checkIn checkOut : date),
    listing_keys_ok s -> In l (listings s) -> is_available l = false ->
    exists msg,
      (msg = msg_unavailable \/ msg = msg_dates)
      /\ createBooking (listing_pk l) guestId checkIn checkOut s
         = (Raise (ValidationError msg), s).
Proof.
  intros s l g ci co Hok Hin Hav.
  destruct (unavailable_listing_not_found s l Hok Hin Hav) as [Hnone Hnz].
  unfold createBooking, bind. rewrite validate_checked by assumption.
  rewrite Hnone.
  destruct (BookingSerializer.overlapping_bookings None (listing_pk l) ci co s).
  - exists msg_unavailable. split; [now left|reflexivity].
  - exists msg_dates. split; [now right|reflexivity].
Qed.

(** C4 on the store whose only listing is off the market. *)
Lemma unavailable_listing_always_rejected_witness :
  exists msg,
    (msg = msg_unavailable \/ msg = msg_dates)
    /\ createBooking (listing_pk closed_listing) 7 (mkdate 2024 3 1)
         (mkdate 2024 3 4) closed_store
       = (Raise (ValidationError msg), closed_store).
Proof.
  apply (unavailable_listing_always_rejected closed_store closed_listing 7
           (mkdate 2024 3 1) (mkdate 2024 3 4)).
  - split.
    + cbn. constructor; [intros []|constructor].
    + repeat constructor.
  - left. reflexivity.
  - reflexivity.
Defined.

(** C8. The validity check leaves the store as it found it, and a booking
    creation that fails, in validation, in the availability check or later,
    leaves the store as it was before the request: no partial booking is
    written. *)
Theorem booking_failure_writes_nothing :
  (forall (inst : option Booking) (data : BookingSerializer.Data) (s : Store),
      snd (BookingSerializer.validate inst data s) = s)
  /\ (forall (listingId guestId : Z) (checkIn checkOut : date) (s : Store)
             (e : Exn),
         fst (createBooking listingId guestId checkIn checkOut s) = Raise e ->
         snd (createBooking listingId guestId checkIn checkOut s) = s)
  /\ (forall (data : BookingSerializer.Data) (kl kg : option Z) (s : Store)
             (e : Exn),
         fst (booking_request data kl kg s) = Raise e ->
         snd (booking_request data kl kg s) = s).
Proof.
  split; [exact validate_store|]. split.
  - intros lid gid ci co s e. rewrite createBooking_as_request.
    apply booking_request_raise.
  - exact booking_request_raise.
Qed.

(** C8 at the rejected request of the overlap example. *)
Lemma booking_failure_writes_nothing_witness :
  snd (createBooking 1 7 (mkdate 2024 3 4) (mkdate 2024 3 8) booked_store)
  = booked_store.
Proof.
  apply (proj1 (proj2 booking_failure_writes_nothing) 1 7 (mkdate 2024 3 4)
           (mkdate 2024 3 8) booked_store (ValidationError msg_dates)).
  reflexivity.
Defined.

(** C9. [validate] runs the overlap and availability checks only when
    [listing_id], [check_in_date] and [check_out_date] are all present and
    truthy.  When the listing id is absent or 0, or a date is absent, it
    returns the data unchanged without consulting the store; when all three
    are there, its answer is the one the two queries give. *)
Theorem validate_skips_checks_on_missing_fields :
  (forall (inst : option Booking) (data : BookingSerializer.Data) (s : Store),
      BookingSerializer.listing_id data = None
      \/ BookingSerializer.listing_id data = Some 0
      \/ BookingSerializer.check_in data = None
      \/ BookingSerializer.check_out data = None ->
      BookingSerializer.validate inst data s = (Ok data, s))
  /\ (forall (inst : option Booking) (lid : Z) (ci co : date)
             (st : option string) (l g : option Z) (s : Store),
         lid <> 0 ->
         BookingSerializer.validate inst
           (BookingSerializer.mkData (Some lid) (Some ci) (Some co) st l g) s
         = match BookingSerializer.overlapping_bookings inst lid ci co s with
           | _ :: _ => (Raise (ValidationError msg_dates), s)
           | [] =>
               match BookingSerializer.available_listing lid s with
               | None => (Raise (ValidationError msg_unavailable), s)
               | Some _ =>
                   (Ok (BookingSerializer.mkData (Some lid) (Some ci) (Some co)
                          st l g), s)
               end
           end).
Proof.
  split; [|exact validate_checked].
  intros inst data s H. unfold BookingSerializer.validate.
  destruct H as [H|[H|[H|H]]]; rewrite H; cbn [truthy_int truthy_date].
  - reflexivity.
  - reflexivity.
  - rewrite andb_false_r. reflexivity.
  - rewrite andb_false_r. reflexivity.
Qed.

(** C9 on a request without listing id whose dates collide with the
    confirmed booking of the example: nothing is checked. *)
Lemma validate_skips_checks_on_missing_fields_witness :
  BookingSerializer.validate None
    (BookingSerializer.mkData None (Some (mkdate 2024 3 4))
       (Some (mkdate 2024 3 8)) None None None) booked_store
  = (Ok (BookingSerializer.mkData None (Some (mkdate 2024 3 4))
           (Some (mkdate 2024 3 8)) None None None), booked_store).
Proof.
  apply (proj1 validate_skips_checks_on_missing_fields).
  left. reflexivity.
Defined.

(** ** Dates are not validated on the serializer path *)

(** C2. On the create path a check-out date that is not after the check-in
    date is not rejected.  With check-in 2024-03-05 and check-out 2024-03-01
    on the listing of the examples, [validate] accepts the data and the
    request stores a pending booking of -4 nights priced at -400.00, while
    [Booking.clean] raises the validation error for the same two dates. *)
Theorem inverted_dates_are_booked :
  BookingSerializer.validate None
    (BookingSerializer.mkData (Some 1) (Some (mkdate 2024 3 5))
       (Some (mkdate 2024 3 1)) None None None) demo_store
  = (Ok (BookingSerializer.mkData (Some 1) (Some (mkdate 2024 3 5))
           (Some (mkdate 2024 3 1)) None None None), demo_store)
  /\ createBooking 1 7 (mkdate 2024 3 5) (mkdate 2024 3 1) demo_store
     = (Ok (mkBooking 1 1 7 (mkdate 2024 3 5) (mkdate 2024 3 1)
              (Dec.mk true 40000 (-2)) "pending"),
        add_booking demo_store
          (mkBooking 1 1 7 (mkdate 2024 3 5) (mkdate 2024 3 1)
             (Dec.mk true 40000 (-2)) "pending"))
  /\ nights_booked (mkBooking 1 1 7 (mkdate 2024 3 5) (mkdate 2024 3 1)
                      (Dec.mk true 40000 (-2)) "pending") = -4
  /\ clean (mkdate 2024 3 5) (mkdate 2024 3 1) demo_store
     = (Raise (ValidationError "Check-out date must be after check-in date."),
        demo_store).
Proof.
  repeat split; vm_compute; reflexivity.
Qed.

(** ** Average rating *)

Lemma length_cons_nonzero {A : Type} (x : A) (l : list A) :
  (Z.of_nat (List.length (x :: l)) =? 0) = false.
Proof. apply Z.eqb_neq. cbn [List.length]. lia. Qed.

Lemma ratings_of_listing_reviews_of (obj : Listing) (s : Store) :
  ratings_of_listing (listing_pk obj) (reviews s)
  = map rating (ListingSerializer.reviews_of obj s).
Proof.
  unfold ListingSerializer.reviews_of.
  induction (reviews s) as [|r rs IH]; cbn [ratings_of_listing filter];
    [reflexivity|].
  destruct (review_listing r =? listing_pk obj); cbn [map]; now rewrite IH.
Qed.

Lemma reviews_of_nil_iff (obj : Listing) (s : Store) :
  ListingSerializer.reviews_of obj s = []
  <-> forall r, In r (reviews s) -> review_listing r <> listing_pk obj.
Proof.
  unfold ListingSerializer.reviews_of. split.
  - intros Hnil r Hin Heq.
    assert (H : In r (filter (fun x => review_listing x =? listing_pk obj)
                             (reviews s)))
      by (apply filter_In; split; [assumption|now apply Z.eqb_eq]).
    now rewrite Hnil in H.
  - intros H. apply filter_none. intros r Hin. apply Z.eqb_neq. now apply H.
Qed.

(** C10. The serialized average rating of a listing is exactly the int 0
    when no stored review is of that listing.  When some stored review is,
    it is the sum of the ratings of the stored reviews of that listing, and
    of no other, divided by their number, which is positive.  The division
    never raises ZeroDivisionError, and the store is only read. *)
Theorem average_rating_mean_or_zero :
  forall (obj : Listing) (s : Store),
    ((forall r, In r (reviews s) -> review_listing r <> listing_pk obj) ->
     ListingSerializer.get_average_rating obj s = (Ok (PyInt 0), s))
    /\ ((exists r, In r (reviews s) /\ review_listing r = listing_pk obj) ->
        0 < Z.of_nat (List.length
                        (ratings_of_listing (listing_pk obj) (reviews s)))
        /\ ListingSerializer.get_average_rating obj s
           = (Ok (PyFloat
                    (inject_Z
                       (sum_Z (ratings_of_listing (listing_pk obj) (reviews s)))
                     / inject_Z
                         (Z.of_nat
                            (List.length
                               (ratings_of_listing (listing_pk obj)
                                  (reviews s)))))),
              s))
    /\ fst (ListingSerializer.get_average_rating obj s) <> Raise ZeroDivisionError.
Proof.
  intros obj s. rewrite ratings_of_listing_reviews_of, length_map.
  pose proof (reviews_of_nil_iff obj s) as Hnil.
  unfold ListingSerializer.get_average_rating. run_py.
  destruct (ListingSerializer.reviews_of obj s) as [|r rs].
  - split; [reflexivity|]. split; [|discriminate].
    intros (x & Hin & Heq). exfalso.
    exact (proj1 Hnil eq_refl x Hin Heq).
  - unfold truediv. rewrite length_cons_nonzero. unfold ret.
    split; [|split; [|discriminate]].
    + intros H. apply Hnil in H. discriminate.
    + intros _. split; [cbn [List.length]; lia|reflexivity].
Qed.

(** C10 on the store where listing 1 is rated 4 and 5, listing 2 is rated 1
    and listing 3 has no review. *)
Lemma average_rating_mean_or_zero_witness :
  ListingSerializer.get_average_rating demo_listing mixed_reviews_store
  = (Ok (PyFloat (inject_Z 9 / inject_Z 2)), mixed_reviews_store)
  /\ ListingSerializer.get_average_rating second_listing mixed_reviews_store
     = (Ok (PyFloat (inject_Z 1 / inject_Z 1)), mixed_reviews_store)
  /\ ListingSerializer.get_average_rating unreviewed_listing mixed_reviews_store
     = (Ok (PyInt 0), mixed_reviews_store).
Proof.
  split; [|split].
  - apply (proj1 (proj2 (average_rating_mean_or_zero demo_listing
                           mixed_reviews_store))).
    exists (mkReview 1 1 7 4 "Good"). split; [left; reflexivity|reflexivity].
  - apply (proj1 (proj2 (average_rating_mean_or_zero second_listing
                           mixed_reviews_store))).
    exists (mkReview 2 2 7 1 "Poor").
    split; [right; left; reflexivity|reflexivity].
  - apply (proj1 (average_rating_mean_or_zero unreviewed_listing
                    mixed_reviews_store)).
    intros r [<-|[<-|[<-|[]]]]; discriminate.
Defined.

(** ** Pricing *)

Lemma validate_Ok (inst : option Booking) (data v : BookingSerializer.Data)
      (s : Store) :
  fst (BookingSerializer.validate inst data s) = Ok v -> v = data.
Proof.
  unfold BookingSerializer.validate.
  destruct (truthy_int _ && truthy_date _ && truthy_date _);
    [|cbn; congruence].
  destruct (BookingSerializer.listing_id data); [|cbn; congruence].
  destruct (BookingSerializer.check_in data); [|cbn; congruence].
  destruct (BookingSerializer.check_out data); [|cbn; congruence].
  run_py.
  destruct (BookingSerializer.overlapping_bookings _ _ _ _ s); [|discriminate].
  destruct (BookingSerializer.available_listing _ s); cbn; congruence.
Qed.

(** A booking request that returns went through [validate] and then through
    [create] on the merged data. *)
Lemma booking_request_Ok (data : BookingSerializer.Data) (kl kg : option Z)
      (s s' : Store) (b : Booking) :
  booking_request data kl kg s = (Ok b, s') ->
  BookingSerializer.validate None data s = (Ok data, s)
  /\ BookingSerializer.save data kl kg s = (Ok b, s').
Proof.
  unfold booking_request, bind.
  pose proof (validate_store None data s) as Hs.
  pose proof (fun v => validate_Ok None data v s) as Hv.
  destruct (BookingSerializer.validate None data s) as [[v|e] s0];
    cbn [snd fst] in *; subst s0; [|discriminate].
  rewrite (Hv v eq_refl). auto.
Qed.




(** ** Store properties kept by every write path *)

Section Preservation.

Variable P : Store -> Prop.

Lemma preserves_ret {A : Type} (a : A) : preserves P (ret a).
Proof. intros s HP. exact HP. Qed.

Lemma preserves_raise {A : Type} (e : Exn) : preserves P (@raise A e).
Proof. intros s HP. exact HP. Qed.

Lemma preserves_query {A : Type} (f : Store -> A) : preserves P (query f).
Proof. intros s HP. exact HP. Qed.

Lemma preserves_bind {A B : Type} (m : M A) (k : A -> M B) :
  preserves P m -> (forall a, preserves P (k a)) -> preserves P (bind m k).
Proof.
  intros Hm Hk s HP. unfold bind. specialize (Hm s HP).
  destruct (m s) as [[a|e] s']; cbn [snd] in *; [now apply Hk|exact Hm].
Qed.

Lemma preserves_getitem {A : Type} (key : string) (v : option A) :
  preserves P (getitem key v).
Proof. destruct v; [apply preserves_ret|apply preserves_raise]. Qed.

Lemma preserves_choice {A : Type} (seq : list A) (draw : nat) :
  preserves P (choice seq draw).
Proof.
  unfold choice. destruct (nth_error _ _);
    [apply preserves_ret|apply preserves_raise].
Qed.

Lemma preserves_round2 (d : Decimal) : preserves P (round2 d).
Proof.
  unfold round2. destruct (Dec.quantize _ _ _);
    [apply preserves_ret|apply preserves_raise].
Qed.

Lemma preserves_Listing_objects_get (pk : Z) :
  preserves P (Listing_objects_get pk).
Proof. intros s HP. now rewrite Listing_objects_get_store. Qed.

Ltac pres :=
  repeat first
    [ apply preserves_ret | apply preserves_raise | apply preserves_query
    | apply preserves_getitem | apply preserves_choice | apply preserves_round2
    | apply preserves_Listing_objects_get | solve [auto]
    | apply preserves_bind; [|intros ?]
    | match goal with
      | |- preserves _ (match ?x with _ => _ end) => destruct x
      end ].

Lemma preserves_booking_validate (inst : option Booking)
      (data : BookingSerializer.Data) :
  preserves P (BookingSerializer.validate inst data).
Proof. intros s HP. now rewrite validate_store. Qed.

Lemma preserves_review_validate (user : Z) (data : ReviewSerializer.Data) :
  preserves P (ReviewSerializer.validate user data).
Proof. unfold ReviewSerializer.validate. pres. Qed.

(** The three INSERT statements are the only writes. *)
Hypothesis listing_insert :
  forall price own available,
    preserves P (Listing_objects_create price own available).
Hypothesis booking_insert :
  forall l g ci co p st, preserves P (Booking_objects_create l g ci co p st).
Hypothesis review_insert :
  forall l u r c, preserves P (Review_objects_create l u r c).

Lemma preserves_booking_request (data : BookingSerializer.Data)
      (kl kg : option Z) :
  preserves P (booking_request data kl kg).
Proof.
  unfold booking_request, BookingSerializer.save, BookingSerializer.create.
  apply preserves_bind; [apply preserves_booking_validate|intros v]. pres.
Qed.

Lemma preserves_review_request (user : Z) (data : ReviewSerializer.Data) :
  preserves P (review_request user data).
Proof.
  unfold review_request, ReviewSerializer.create.
  apply preserves_bind; [apply preserves_review_validate|intros v]. pres.
Qed.

Lemma preserves_create_listings (draws : list Command.ListingDraw) :
  preserves P (Command._create_listings draws).
Proof using listing_insert.
  unfold Command._create_listings. apply preserves_bind; [pres|intros us].
  induction draws as [|d rest IH]; cbn [Command.create_listings_loop]; [pres|].
  apply preserves_bind; [|intros _; exact IH].
  unfold Command.create_listing_step. pres.
Qed.

Lemma preserves_create_bookings (draws : list Command.BookingDraw) :
  preserves P (Command._create_bookings draws).
Proof.
  unfold Command._create_bookings.
  apply preserves_bind; [pres|intros av].
  apply preserves_bind; [pres|intros us].
  destruct av as [|l0 av]; [pres|]. generalize (l0 :: av). intros ls.
  induction draws as [|d rest IH]; cbn [Command.create_bookings_loop]; [pres|].
  apply preserves_bind; [|intros _; exact IH].
  unfold Command.create_booking_step. pres.
Qed.

Lemma preserves_create_reviews (draws : list Command.ReviewDraw) :
  preserves P (Command._create_reviews draws).
Proof.
  unfold Command._create_reviews.
  apply preserves_bind; [pres|intros ls].
  apply preserves_bind; [pres|intros us].
  destruct ls as [|l0 ls]; [pres|]. generalize (l0 :: ls). intros ls'.
  induction draws as [|d rest IH]; cbn [Command.create_reviews_loop]; [pres|].
  apply preserves_bind; [|intros _; exact IH].
  unfold Command.create_review_step. pres.
Qed.

Lemma exec_preserves (o : Op) (s : Store) : P s -> P (exec o s).
Proof.
  destruct o; cbn [exec].
  - apply preserves_booking_request.
  - apply preserves_review_request.
  - apply preserves_create_listings.
  - apply preserves_create_bookings.
  - apply preserves_create_reviews.
Qed.

Lemma exec_all_preserves (ops : list Op) (s : Store) :
  P s -> P (exec_all ops s).
Proof.
  unfold exec_all. revert s.
  induction ops as [|o ops IH]; intros s HP; cbn [fold_left]; [exact HP|].
  apply IH. now apply exec_preserves.
Qed.

End Preservation.

(** ** Review uniqueness *)

Lemma Review_objects_create_cases
      (l : option Z) (u : Z) (r : option Z) (c : option string) (s : Store) :
  (exists e, Review_objects_create l u r c s = (Raise e, s))
  \/ (exists lk rt cm,
         l = Some lk /\ r = Some rt /\ c = Some cm
         /\ ReviewSerializer.review_exists lk u s = false
         /\ Review_objects_create l u r c s
            = (Ok (mkReview (next_pk (map review_pk (reviews s))) lk u rt cm),
               add_review s
                 (mkReview (next_pk (map review_pk (reviews s))) lk u rt cm))).
Proof.
  unfold Review_objects_create.
  destruct l as [lk|]; [|left; eexists; reflexivity].
  destruct r as [rt|]; [|left; eexists; reflexivity].
  destruct c as [cm|]; [|left; eexists; reflexivity].
  run_py.
  destruct (negb _); [left; eexists; reflexivity|].
  destruct (existsb _ (reviews s)) eqn:E; [left; eexists; reflexivity|].
  right. exists lk, rt, cm. repeat split; first [assumption|reflexivity].
Qed.

Lemma NoDup_snoc {A : Type} (l : list A) (a : A) :
  NoDup l -> ~ In a l -> NoDup (l ++ [a]).
Proof.
  induction l as [|x l IH]; intros Hnd Hnot; cbn [app].
  - constructor; [intros []|constructor].
  - inversion Hnd as [|? ? Hx Hl]; subst. constructor.
    + intros Hin. apply in_app_or in Hin. destruct Hin as [Hin|[->|[]]].
      * contradiction.
      * apply Hnot. now left.
    + apply IH; [assumption|]. intros Hin. apply Hnot. now right.
Qed.

Lemma review_exists_false_not_in (lk u : Z) (s : Store) :
  ReviewSerializer.review_exists lk u s = false ->
  ~ In (lk, u) (map (fun r => (review_listing r, review_user r)) (reviews s)).
Proof.
  unfold ReviewSerializer.review_exists. intros Hex Hin.
  apply in_map_iff in Hin. destruct Hin as [r [Heq Hr]].
  injection Heq as Hl Hu.
  assert (existsb (fun r => (review_listing r =? lk) && (review_user r =? u))
                  (reviews s) = true) as Ht.
  { apply existsb_exists. exists r. split; [assumption|].
    rewrite Hl, Hu, !Z.eqb_refl. reflexivity. }
  congruence.
Qed.

Lemma review_insert_keeps_pairs (l : option Z) (u : Z) (r : option Z)
      (c : option string) :
  preserves one_review_per_pair (Review_objects_create l u r c).
Proof.
  intros s Hs.
  destruct (Review_objects_create_cases l u r c s)
    as [[e He]|(lk & rt & cm & _ & _ & _ & Hfresh & Hc)].
  - now rewrite He.
  - rewrite Hc. cbn [snd]. unfold one_review_per_pair, add_review.
    cbn [reviews]. rewrite map_app. cbn [map review_listing review_user].
    apply NoDup_snoc; [exact Hs|]. now apply review_exists_false_not_in.
Qed.

Lemma booking_insert_frame (l g : option Z) (ci co : option date)
      (p : option Decimal) (st : option string) (s : Store) :
  listings (snd (Booking_objects_create l g ci co p st s)) = listings s
  /\ reviews (snd (Booking_objects_create l g ci co p st s)) = reviews s.
Proof.
  destruct (Booking_objects_create_cases l g ci co p st s)
    as [[e He]|(? & ? & ? & ? & ? & ? & _ & _ & _ & _ & _ & _ & Hc)].
  - now rewrite He.
  - now rewrite Hc.
Qed.

Lemma Listing_objects_create_cases (price : Decimal) (own : Z)
      (available : bool) (s : Store) :
  (exists e, Listing_objects_create price own available s = (Raise e, s))
  \/ (exists q,
         Dec.quantize 10 price (-2) = Some q
         /\ Listing_objects_create price own available s
            = (Ok (mkListing (next_pk (map listing_pk (listings s))) q
                     available own),
               add_listing s
                 (mkListing (next_pk (map listing_pk (listings s))) q
                    available own))).
Proof.
  unfold Listing_objects_create, adapt_decimalfield_value. run_py.
  change (- (2)) with (-2).
  destruct (Dec.quantize 10 price (-2)) as [q|] eqn:Eq;
    [|left; eexists; reflexivity].
  destruct (negb _); [left; eexists; reflexivity|].
  right. exists q. split; reflexivity.
Qed.

Lemma listing_insert_frame (price : Decimal) (own : Z) (available : bool)
      (s : Store) :
  reviews (snd (Listing_objects_create price own available s)) = reviews s.
Proof.
  destruct (Listing_objects_create_cases price own available s)
    as [[e He]|(q & _ & Hc)].
  - now rewrite He.
  - now rewrite Hc.
Qed.

(** Every write path keeps the reviews free of duplicate pairs. *)
Lemma exec_all_keeps_pairs (ops : list Op) (s : Store) :
  one_review_per_pair s -> one_review_per_pair (exec_all ops s).
Proof.
  apply exec_all_preserves.
  - intros price own av s0 Hs. unfold one_review_per_pair.
    now rewrite listing_insert_frame.
  - intros l g ci co p st s0 Hs. unfold one_review_per_pair.
    now rewrite (proj2 (booking_insert_frame l g ci co p st s0)).
  - exact review_insert_keeps_pairs.
Qed.

Lemma createReview_as_request (lid uid rt : Z) (cm : string) :
  createReview lid uid rt cm
  = review_request uid (ReviewSerializer.mkData (Some lid) (Some rt) (Some cm)).
Proof. reflexivity. Qed.

(** C6. When a review by the user for the listing is already stored, a
    further creation attempt raises and stores nothing; for a listing id
    other than 0 the error is the validation error of the serializer, for
    the id 0 that the serializer does not check it is the integrity error of
    the table.  Hence, whatever sequence of requests and seeding runs is
    executed on a store with at most one review per (listing, user) pair,
    the resulting store has at most one review per pair. *)
Theorem one_review_per_listing_and_user :
  (forall (s : Store) (listingId userId rt : Z) (cm : string),
      ReviewSerializer.review_exists listingId userId s = true ->
      exists e,
        createReview listingId userId rt cm s = (Raise e, s)
        /\ (listingId <> 0 ->
            e = ValidationError "You have already reviewed this listing."))
  /\ (forall (ops : list Op) (s : Store),
         one_review_per_pair s -> one_review_per_pair (exec_all ops s))
  /\ (forall ops : list Op, one_review_per_pair (exec_all ops empty_store)).
Proof.
  split; [|split].
  - intros s lid uid rt cm Hex.
    unfold createReview, ReviewSerializer.validate, ReviewSerializer.create.
    cbn [ReviewSerializer.listing_id].
    destruct (Z.eqb_spec lid 0) as [->|Hnz]; cbn [negb].
    + run_py. cbn [ReviewSerializer.listing_id ReviewSerializer.rating_
                   ReviewSerializer.comment_].
      destruct (Review_objects_create_cases (Some 0) uid (Some rt) (Some cm) s)
        as [[e He]|(lk & ? & ? & Hl & _ & _ & Hfresh & _)].
      * exists e. split; [exact He|]. intros H. now elim H.
      * injection Hl as <-. congruence.
    + run_py. rewrite Hex. eexists. split; [reflexivity|]. reflexivity.
  - exact exec_all_keeps_pairs.
  - intros ops. apply exec_all_keeps_pairs. constructor.
Qed.

(** C6 on the store with two reviews: a second review of listing 1 by user
    7 is refused, and replaying requests keeps the pairs distinct. *)
Lemma one_review_per_listing_and_user_witness :
  (exists e,
      createReview 1 7 3 "Again" reviewed_store = (Raise e, reviewed_store)
      /\ (1 <> 0 -> e = ValidationError "You have already reviewed this listing."))
  /\ one_review_per_pair
       (exec_all [ReviewRequest 7 (ReviewSerializer.mkData (Some 1) (Some 3)
                                     (Some "Again"))]
                 reviewed_store).
Proof.
  split.
  - apply (proj1 one_review_per_listing_and_user reviewed_store 1 7 3 "Again").
    reflexivity.
  - apply (proj1 (proj2 one_review_per_listing_and_user)).
    unfold one_review_per_pair. cbn.
    constructor; [intros [H|[]]; discriminate|].
    constructor; [intros []|constructor].
Defined.

(** ** Primary keys and price columns of listings *)

Lemma fold_max_ge (pks : list Z) :
  0 <= fold_right Z.max 0 pks
  /\ forall x, In x pks -> x <= fold_right Z.max 0 pks.
Proof.
  induction pks as [|p pks [IH0 IH]]; cbn [fold_right In].
  - split; [lia|intros x []].
  - split; [lia|]. intros x [->|Hx]; [lia|]. specialize (IH x Hx). lia.
Qed.

Lemma next_pk_pos (pks : list Z) : 0 < next_pk pks.
Proof. unfold next_pk. destruct (fold_max_ge pks). lia. Qed.

Lemma next_pk_fresh (pks : list Z) : ~ In (next_pk pks) pks.
Proof.
  intros Hin. destruct (fold_max_ge pks) as [_ H].
  specialize (H _ Hin). unfold next_pk in H. lia.
Qed.

Lemma listing_insert_keeps_keys (price : Decimal) (own : Z) (available : bool) :
  preserves listing_keys_ok (Listing_objects_create price own available).
Proof.
  intros s [Hnd Hpos].
  destruct (Listing_objects_create_cases price own available s)
    as [[e He]|(q & _ & Hc)].
  - rewrite He. now split.
  - rewrite Hc. cbn [snd]. unfold listing_keys_ok, add_listing. cbn [listings].
    split.
    + rewrite map_app. cbn [map listing_pk].
      apply NoDup_snoc; [exact Hnd|apply next_pk_fresh].
    + apply Forall_app. split; [exact Hpos|].
      constructor; [|constructor]. cbn [listing_pk]. apply next_pk_pos.
Qed.

Lemma listing_insert_keeps_prices (price : Decimal) (own : Z) (available : bool) :
  preserves price_columns_ok (Listing_objects_create price own available).
Proof.
  intros s Hs.
  destruct (Listing_objects_create_cases price own available s)
    as [[e He]|(q & Hq & Hc)].
  - now rewrite He.
  - rewrite Hc. cbn [snd]. unfold price_columns_ok, add_listing. cbn [listings].
    apply Forall_app. split; [exact Hs|].
    constructor; [|constructor]. cbn [price_per_night].
    apply quantize_result in Hq; [|lia]. tauto.
Qed.

Lemma review_insert_frame (l : option Z) (u : Z) (r : option Z)
      (c : option string) (s : Store) :
  listings (snd (Review_objects_create l u r c s)) = listings s.
Proof.
  destruct (Review_objects_create_cases l u r c s)
    as [[e He]|(? & ? & ? & _ & _ & _ & _ & Hc)].
  - now rewrite He.
  - now rewrite Hc.
Qed.

(** Every write path keeps listing keys positive and distinct, and prices
    in the format of their column; both hold of the empty store. *)
Lemma exec_all_keeps_listings (ops : list Op) (s : Store) :
  listing_keys_ok s /\ price_columns_ok s ->
  listing_keys_ok (exec_all ops s) /\ price_columns_ok (exec_all ops s).
Proof.
  apply (exec_all_preserves (fun st => listing_keys_ok st /\ price_columns_ok st)).
  - intros price own av s0 [Hk Hp]. split.
    + now apply listing_insert_keeps_keys.
    + now apply listing_insert_keeps_prices.
  - intros l g ci co p st s0. unfold listing_keys_ok, price_columns_ok.
    now rewrite (proj1 (booking_insert_frame l g ci co p st s0)).
  - intros l u r c s0. unfold listing_keys_ok, price_columns_ok.
    now rewrite review_insert_frame.
Qed.

Lemma empty_store_listings_ok :
  listing_keys_ok empty_store /\ price_columns_ok empty_store.
Proof. repeat constructor. Qed.

(** ** No double booking *)

Lemma ranges_overlap_sym (b1 b2 : Booking) :
  ranges_overlap b1 b2 -> ranges_overlap b2 b1.
Proof. unfold ranges_overlap. lia. Qed.

(** One request of the [createBooking] form keeps active bookings of a
    listing disjoint. *)
Lemma create_booking_op_keeps_disjoint
      (lid gid : Z) (ci co : date) (st : option string) (s : Store) :
  listing_keys_ok s -> no_double_booking s ->
  no_double_booking (exec (create_booking_op lid gid ci co st) s).
Proof.
  intros [_ Hpos] Hinv. unfold create_booking_op. cbn [exec].
  set (data := BookingSerializer.mkData (Some lid) (Some ci) (Some co) st None None).
  destruct (booking_request data (Some lid) (Some gid) s) as [[b|e] s'] eqn:E.
  2:{ pose proof (booking_request_raise data (Some lid) (Some gid) s e) as Hr.
      rewrite E in Hr. cbn [fst snd] in *. now rewrite Hr. }
  cbn [snd]. apply booking_request_Ok in E. destruct E as [Hval Hsave].
  unfold BookingSerializer.save in Hsave.
  match type of Hsave with BookingSerializer.create ?d s = _ =>
    destruct (create_cases d s)
      as [[e He]|(lid' & l & ci' & co' & lk & gk & q & Hlid & Hget & Hci & Hco
                  & Hlk & Hgk & _ & Hc)]
  end; [rewrite He in Hsave; discriminate|].
  unfold data in *.
  cbn [BookingSerializer.listing_id BookingSerializer.check_in
       BookingSerializer.check_out BookingSerializer.status_
       BookingSerializer.listing BookingSerializer.guest_] in *.
  injection Hlid as <-. injection Hci as <-. injection Hco as <-.
  injection Hlk as <-. injection Hgk as <-.
  rewrite Hc in Hsave. injection Hsave as <- <-.
  apply Listing_objects_get_Ok in Hget. destruct Hget as (Hin & Hpk & _).
  rewrite Forall_forall in Hpos. specialize (Hpos l Hin).
  assert (Hnz : lid <> 0) by lia.
  rewrite validate_checked in Hval by assumption.
  assert (Hfree : ~ exists b, In b (bookings s) /\ booking_listing b = lid
                             /\ active b = true
                             /\ check_in_date b < co /\ check_out_date b > ci).
  { rewrite <- overlapping_nonempty_iff.
    destruct (BookingSerializer.overlapping_bookings None lid ci co s);
      [tauto|discriminate]. }
  set (new := mkBooking _ _ _ _ _ _ _).
  intros b1 b2 H1 H2 Hl A1 A2 Hov.
  unfold add_booking in H1, H2. cbn [bookings] in H1, H2.
  apply in_app_or in H1. apply in_app_or in H2.
  destruct H1 as [H1|[<-|[]]], H2 as [H2|[<-|[]]].
  - now apply Hinv.
  - exfalso. apply Hfree. exists b1. unfold ranges_overlap in Hov.
    cbn [new booking_listing check_in_date check_out_date] in *.
    repeat split; try assumption; lia.
  - exfalso. apply Hfree. exists b2. unfold ranges_overlap in Hov.
    cbn [new booking_listing check_in_date check_out_date] in *.
    repeat split; try assumption; lia.
  - reflexivity.
Qed.

(** The counterexample to C7 as stated: on a store without bookings, two
    iterations of the seeding loop that draw the same listing and dates
    leave two distinct pending bookings over the same nights. *)
Lemma seed_double_books :
  no_double_booking demo_store
  /\ Forall (Command.possible_booking_draw (mkdate 2024 3 1)) [same_draw; same_draw]
  /\ bookings twice_seeded
     = [mkBooking 1 1 7 (mkdate 2024 1 10) (mkdate 2024 1 13)
          (Dec.mk false 30000 (-2)) "pending";
        mkBooking 2 1 7 (mkdate 2024 1 10) (mkdate 2024 1 13)
          (Dec.mk false 30000 (-2)) "pending"]
  /\ ~ no_double_booking twice_seeded.
Proof.
  split; [intros b1 b2 []|].
  split; [repeat constructor; vm_compute; discriminate|].
  assert (E : bookings twice_seeded
              = [mkBooking 1 1 7 (mkdate 2024 1 10) (mkdate 2024 1 13)
                   (Dec.mk false 30000 (-2)) "pending";
                 mkBooking 2 1 7 (mkdate 2024 1 10) (mkdate 2024 1 13)
                   (Dec.mk false 30000 (-2)) "pending"])
    by (vm_compute; reflexivity).
  split; [exact E|].
  intros H.
  specialize (H (mkBooking 1 1 7 (mkdate 2024 1 10) (mkdate 2024 1 13)
                   (Dec.mk false 30000 (-2)) "pending")
                (mkBooking 2 1 7 (mkdate 2024 1 10) (mkdate 2024 1 13)
                   (Dec.mk false 30000 (-2)) "pending")).
  rewrite E in H. cbn [booking_pk] in H.
  assert (1 = 2) as Habs; [|discriminate].
  apply H.
  - left. reflexivity.
  - right. left. reflexivity.
  - reflexivity.
  - reflexivity.
  - reflexivity.
  - unfold ranges_overlap. vm_compute. split; reflexivity.
Qed.

(** C7, amended.  The serializer create path keeps the invariant: on a
    store whose listing keys are positive and distinct and in which no two
    distinct pending or confirmed bookings of one listing overlap, a
    [createBooking] request, accepted or refused, leaves a store with the
    same property, and so does every sequence of such requests. *)
Theorem create_path_keeps_bookings_disjoint :
  (forall (s : Store) (listingId guestId : Z) (checkIn checkOut : date),
      listing_keys_ok s -> no_double_booking s ->
      no_double_booking (snd (createBooking listingId guestId checkIn checkOut s)))
  /\ (forall (ops : list Op) (s : Store),
         Forall is_create_booking ops ->
         listing_keys_ok s -> no_double_booking s ->
         no_double_booking (exec_all ops s)).
Proof.
  split.
  - intros s lid gid ci co Hk Hinv.
    exact (create_booking_op_keeps_disjoint lid gid ci co None s Hk Hinv).
  - intros ops. unfold exec_all.
    induction ops as [|o ops IH]; intros s Hops Hk Hinv; cbn [fold_left];
      [exact Hinv|].
    inversion Hops as [|? ? Ho Hrest]; subst.
    apply IH; [exact Hrest| |].
    + assert (Hp : listing_keys_ok (exec_all [o] s)
                   /\ (fun _ => True) (exec_all [o] s)).
      { apply (exec_all_preserves
                 (fun st => listing_keys_ok st /\ (fun _ => True) st));
          [| | |now split].
        - intros price own av s0 [H _]. split; [|exact I].
          now apply listing_insert_keeps_keys.
        - intros l g ci co p st s0. unfold listing_keys_ok.
          now rewrite (proj1 (booking_insert_frame l g ci co p st s0)).
        - intros l u r c s0. unfold listing_keys_ok.
          now rewrite review_insert_frame. }
      exact (proj1 Hp).
    + destruct Ho. now apply create_booking_op_keeps_disjoint.
Qed.

(** C7 amended, on the store with the confirmed booking of the example:
    after the accepted request from 03-05 to 03-08 no two active bookings
    overlap. *)
Lemma create_path_keeps_bookings_disjoint_witness :
  no_double_booking
    (snd (createBooking 1 7 (mkdate 2024 3 5) (mkdate 2024 3 8) booked_store)).
Proof.
  apply (proj1 create_path_keeps_bookings_disjoint).
  - split.
    + cbn. constructor; [intros []|constructor].
    + repeat constructor.
  - intros b1 b2 [<-|[]] [<-|[]] _ _ _ _. reflexivity.
Defined.

(** * Further properties of the serializers *)

(** ** Updates, missing keys, unknown listings *)

Lemma filter_all {A : Type} (f : A -> bool) (l : list A) :
  (forall x, In x l -> f x = true) -> filter f l = l.
Proof.
  induction l as [|x l IH]; intros H; [reflexivity|].
  cbn [filter]. rewrite (H x (or_introl eq_refl)). f_equal.
  apply IH. intros y Hy. apply H. now right.
Qed.

Lemma overlapping_excludes_instance (lid : Z) (ci co : date)
      (us : list Z) (ls : list Listing) (rs : list Review)
      (before after : list Booking) (b : Booking) :
  (forall x, In x (before ++ after) -> booking_pk x <> booking_pk b) ->
  BookingSerializer.overlapping_bookings (Some b) lid ci co
    (mkStore us ls (before ++ b :: after) rs)
  = BookingSerializer.overlapping_bookings None lid ci co
      (mkStore us ls (before ++ after) rs).
Proof.
  intros Hpk. unfold BookingSerializer.overlapping_bookings. cbn [bookings].
  rewrite (filter_all (fun _ : Booking => true)) by reflexivity.
  rewrite !filter_app. cbn [filter].
  assert (Hkeep : forall part,
             (forall x, In x part -> In x (before ++ after)) ->
             filter (fun x => negb (booking_pk x =? booking_pk b))
                    (filter (BookingSerializer.conflicts lid ci co) part)
             = filter (BookingSerializer.conflicts lid ci co) part).
  { intros part Hpart. apply filter_all. intros x Hx.
    apply filter_In in Hx. destruct Hx as [Hx _].
    apply negb_true_iff, Z.eqb_neq, Hpk, Hpart, Hx. }
  destruct (BookingSerializer.conflicts lid ci co b); cbn [filter];
    rewrite ?Z.eqb_refl; cbn [negb];
    (rewrite !Hkeep; [reflexivity| |]);
    intros x Hx; apply in_or_app; [right|left|right|left]; exact Hx.
Qed.

(** X1. On an update, the row being updated never blocks itself: with
    primary keys that are distinct, [validate] on the serializer bound to
    booking [b] answers as the [validate] of a creation would on the store
    without [b]. *)
Theorem validate_update_ignores_own_row :
  forall (data : BookingSerializer.Data)
         (us : list Z) (ls : list Listing) (rs : list Review)
         (before after : list Booking) (b : Booking),
    (forall x, In x (before ++ after) -> booking_pk x <> booking_pk b) ->
    fst (BookingSerializer.validate (Some b) data
           (mkStore us ls (before ++ b :: after) rs))
    = fst (BookingSerializer.validate None data
             (mkStore us ls (before ++ after) rs)).
Proof.
  intros data us ls rs before after b Hpk.
  unfold BookingSerializer.validate.
  destruct (truthy_int _ && truthy_date _ && truthy_date _); [|reflexivity].
  destruct (BookingSerializer.listing_id data) as [lid|]; [|reflexivity].
  destruct (BookingSerializer.check_in data) as [ci|]; [|reflexivity].
  destruct (BookingSerializer.check_out data) as [co|]; [|reflexivity].
  run_py.
  rewrite (overlapping_excludes_instance lid ci co us ls rs before after b Hpk).
  destruct (BookingSerializer.overlapping_bookings _ _ _ _ _); [|reflexivity].
  unfold BookingSerializer.available_listing. cbn [listings].
  destruct (hd_error _); reflexivity.
Qed.

(** X1 on the confirmed booking of the example, re-validated with its own
    dates: accepted. *)
Lemma validate_update_ignores_own_row_witness :
  fst (BookingSerializer.validate (Some demo_booking)
         (BookingSerializer.mkData (Some 1) (Some (mkdate 2024 3 1))
            (Some (mkdate 2024 3 5)) None None None)
         (mkStore [7] [demo_listing] ([] ++ demo_booking :: []) []))
  = Ok (BookingSerializer.mkData (Some 1) (Some (mkdate 2024 3 1))
          (Some (mkdate 2024 3 5)) None None None).
Proof.
  rewrite (validate_update_ignores_own_row _ [7] [demo_listing] [] [] []
             demo_booking).
  - reflexivity.
  - intros x [].
Defined.



(** X4. Data without [listing_id] passes both [validate] functions
    unchecked, and the request then fails in [create] with
    KeyError('listing_id') and stores nothing. *)
Theorem missing_listing_id_raises_KeyError :
  (forall (data : BookingSerializer.Data) (kl kg : option Z) (s : Store),
      BookingSerializer.listing_id data = None ->
      booking_request data kl kg s = (Raise (KeyError "listing_id"), s))
  /\ (forall (user : Z) (data : ReviewSerializer.Data) (s : Store),
         ReviewSerializer.listing_id data = None ->
         review_request user data s = (Raise (KeyError "listing_id"), s)).
Proof.
  split.
  - intros data kl kg s H.
    unfold booking_request, BookingSerializer.validate, BookingSerializer.save,
      BookingSerializer.create.
    rewrite H. cbn [truthy_int andb]. run_py.
    cbn [BookingSerializer.listing_id]. rewrite H. reflexivity.
  - intros user data s H.
    unfold review_request, ReviewSerializer.validate, ReviewSerializer.create.
    rewrite H. run_py. rewrite H. reflexivity.
Qed.

(** X4 on a booking request and a review request that carry no listing
    id. *)
Lemma missing_listing_id_raises_KeyError_witness :
  booking_request
    (BookingSerializer.mkData None (Some (mkdate 2024 3 1))
       (Some (mkdate 2024 3 4)) None None None) (Some 1) (Some 7) demo_store
  = (Raise (KeyError "listing_id"), demo_store)
  /\ review_request 7 (ReviewSerializer.mkData None (Some 5) (Some "Fine"))
       demo_store
     = (Raise (KeyError "listing_id"), demo_store).
Proof.
  split.
  - apply (proj1 missing_listing_id_raises_KeyError). reflexivity.
  - apply (proj2 missing_listing_id_raises_KeyError). reflexivity.
Defined.

Lemma mem_pk_true_iff (x : Z) (l : list Z) : mem_pk x l = true <-> In x l.
Proof.
  unfold mem_pk. rewrite existsb_exists. split.
  - intros [y [Hy Heq]]. apply Z.eqb_eq in Heq. now subst.
  - intros H. exists x. split; [assumption|apply Z.eqb_refl].
Qed.

(** X5. A booking request for a listing id that no stored listing has is
    refused by [validate] with one of its two messages when the id is not
    0; the id 0 is falsy, skips [validate] and makes [create] raise
    DoesNotExist.  Nothing is stored either way. *)
Theorem unknown_listing_rejected :
  (forall (s : Store) (listingId guestId : Z) (checkIn checkOut : date),
      listingId <> 0 ->
      ~ In listingId (map listing_pk (listings s)) ->
      exists msg,
        (msg = msg_unavailable \/ msg = msg_dates)
        /\ createBooking listingId guestId checkIn checkOut s
           = (Raise (ValidationError msg), s))
  /\ (forall (s : Store) (guestId : Z) (checkIn checkOut : date),
         listing_keys_ok s ->
         createBooking 0 guestId checkIn checkOut s = (Raise DoesNotExist, s)).
Proof.
  split.
  - intros s lid gid ci co Hnz Hnot.
    unfold createBooking, bind. rewrite validate_checked by assumption.
    assert (Hnone : BookingSerializer.available_listing lid s = None).
    { unfold BookingSerializer.available_listing.
      rewrite filter_none; [reflexivity|]. intros x Hx.
      destruct (Z.eqb_spec (listing_pk x) lid) as [Heq|]; [|reflexivity].
      exfalso. apply Hnot. rewrite <- Heq. now apply in_map. }
    rewrite Hnone.
    destruct (BookingSerializer.overlapping_bookings None lid ci co s).
    + exists msg_unavailable. split; [now left|reflexivity].
    + exists msg_dates. split; [now right|reflexivity].
  - intros s gid ci co [_ Hpos].
    unfold createBooking, BookingSerializer.validate, BookingSerializer.save,
      BookingSerializer.create.
    cbn [BookingSerializer.listing_id truthy_int Z.eqb negb andb]. run_py.
    unfold Listing_objects_get. cbn [BookingSerializer.listing_id].
    rewrite filter_none; [reflexivity|].
    intros x Hx. rewrite Forall_forall in Hpos. specialize (Hpos x Hx).
    apply Z.eqb_neq. lia.
Qed.

(** X5 on the store of the examples: listing 9 does not exist, and
    neither does listing 0. *)
Lemma unknown_listing_rejected_witness :
  (exists msg,
      (msg = msg_unavailable \/ msg = msg_dates)
      /\ createBooking 9 7 (mkdate 2024 3 1) (mkdate 2024 3 4) demo_store
         = (Raise (ValidationError msg), demo_store))
  /\ createBooking 0 7 (mkdate 2024 3 1) (mkdate 2024 3 4) demo_store
     = (Raise DoesNotExist, demo_store).
Proof.
  split.
  - apply (proj1 unknown_listing_rejected demo_store 9 7); [discriminate|].
    intros [H|[]]. discriminate.
  - apply (proj2 unknown_listing_rejected demo_store 7). split.
    + cbn. constructor; [intros []|constructor].
    + repeat constructor.
Defined.

(** ** Accepted requests *)

Lemma filter_pk_unique {A : Type} (f : A -> Z) (l : list A) (a : A) :
  NoDup (map f l) -> In a l -> filter (fun x => f x =? f a) l = [a].
Proof.
  induction l as [|x l IH]; cbn [map In filter]; intros Hnd Hin; [contradiction|].
  inversion Hnd as [|? ? Hx Hl]; subst.
  destruct Hin as [->|Hin].
  - rewrite Z.eqb_refl. f_equal. apply filter_none. intros y Hy.
    apply Z.eqb_neq. intros Heq. apply Hx. rewrite <- Heq. now apply in_map.
  - destruct (Z.eqb_spec (f x) (f a)) as [Heq|_]; [|now apply IH].
    exfalso. apply Hx. rewrite Heq. now apply in_map.
Qed.

Lemma available_listing_found (s : Store) (l : Listing) :
  In l (listings s) -> is_available l = true ->
  exists l', BookingSerializer.available_listing (listing_pk l) s = Some l'.
Proof.
  intros Hin Hav. unfold BookingSerializer.available_listing.
  set (F := filter _ (listings s)).
  assert (HF : In l F).
  { apply filter_In. split; [assumption|]. now rewrite Z.eqb_refl, Hav. }
  apply in_rev in HF. destruct (rev F) as [|x rest]; [contradiction|].
  exists x. reflexivity.
Qed.

(** X3. A booking request for a stored, available listing, by a stored
    guest, over a range that no pending or confirmed booking of the listing
    overlaps, and whose price fits the ten digits of its column, is accepted:
    it returns and stores a pending booking with a fresh key and the exact
    product as total price.  If its range is not empty, the same range is
    refused from then on. *)
Theorem booking_accepted_then_blocks :
  forall (s : Store) (l : Listing) (guestId : Z) (checkIn checkOut : date),
    listing_keys_ok s ->
    In l (listings s) -> is_available l = true ->
    In guestId (users s) ->
    Dec.dexp (price_per_night l) = -2 ->
    Z.of_N (Dec.dint (price_per_night l))
    * Z.abs (days_between checkIn checkOut) < 10 ^ 10 ->
    (forall b, In b (bookings s) -> booking_listing b = listing_pk l ->
               active b = true ->
               ~ (check_in_date b < checkOut /\ check_out_date b > checkIn)) ->
    let b := mkBooking (next_pk (map booking_pk (bookings s))) (listing_pk l)
               guestId checkIn checkOut
               (exact_product (price_per_night l)
                  (days_between checkIn checkOut))
               "pending" in
    createBooking (listing_pk l) guestId checkIn checkOut s
    = (Ok b, add_booking s b)
    /\ (checkIn < checkOut ->
        forall otherGuest,
          createBooking (listing_pk l) otherGuest checkIn checkOut
            (add_booking s b)
          = (Raise (ValidationError msg_dates), add_booking s b)).
Proof.
  intros s l gid ci co Hkeys Hin Hav Hg Hexp Hfit Hfree b.
  assert (Hnz : listing_pk l <> 0).
  { destruct Hkeys as [_ Hpos]. rewrite Forall_forall in Hpos.
    specialize (Hpos l Hin). lia. }
  split.
  - unfold createBooking, bind. rewrite validate_checked by assumption.
    destruct (BookingSerializer.overlapping_bookings None (listing_pk l) ci co s)
      as [|x rest] eqn:E.
    2:{ exfalso.
        assert (Hne : BookingSerializer.overlapping_bookings None
                        (listing_pk l) ci co s <> [])
          by (rewrite E; discriminate).
        apply overlapping_nonempty_iff in Hne.
        destruct Hne as (y & Hy & Hl & Ha & Hc). now apply (Hfree y). }
    destruct (available_listing_found s l Hin Hav) as [l' ->].
    unfold BookingSerializer.save, BookingSerializer.create. run_py.
    cbn [BookingSerializer.listing_id BookingSerializer.check_in
         BookingSerializer.check_out BookingSerializer.status_
         BookingSerializer.listing BookingSerializer.guest_].
    unfold Listing_objects_get.
    rewrite (filter_pk_unique listing_pk (listings s) l (proj1 Hkeys) Hin).
    unfold Booking_objects_create, adapt_decimalfield_value. run_py.
    unfold total_price_for_nights. rewrite mul_of_int_exact.
    2:{ unfold Dec.prec.
        assert (10 ^ 10 < 10 ^ 28) by (vm_compute; reflexivity). lia. }
    unfold exact_product at 1. rewrite Hexp. change (- (2)) with (-2).
    rewrite quantize_fits;
      [|lia|rewrite N2Z.inj_mul, N2Z.inj_abs_N; exact Hfit].
    assert (Hl : mem_pk (listing_pk l) (map listing_pk (listings s)) = true)
      by (apply mem_pk_true_iff; now apply in_map).
    assert (Hu : mem_pk gid (users s) = true) by now apply mem_pk_true_iff.
    rewrite Hl, Hu. cbn [andb negb]. unfold insert_booking.
    unfold b, exact_product. rewrite Hexp. reflexivity.
  - intros Hlt other. unfold createBooking, bind.
    rewrite validate_checked by assumption.
    destruct (BookingSerializer.overlapping_bookings None (listing_pk l) ci co
                (add_booking s b)) as [|x rest] eqn:E; [|reflexivity].
    exfalso.
    assert (Hne : BookingSerializer.overlapping_bookings None (listing_pk l)
                    ci co (add_booking s b) <> []).
    { apply overlapping_nonempty_iff. exists b. split.
      - unfold add_booking. cbn [bookings]. apply in_or_app. right. now left.
      - unfold b. cbn [booking_listing check_in_date check_out_date].
        repeat split; try reflexivity; lia. }
    now rewrite E in Hne.
Qed.

(** X3 on the pricing example: accepted on the store without bookings,
    after which the same range is refused to another guest. *)
Lemma booking_accepted_then_blocks_witness :
  createBooking 1 7 (mkdate 2024 3 1) (mkdate 2024 3 4) demo_store
  = (Ok (mkBooking 1 1 7 (mkdate 2024 3 1) (mkdate 2024 3 4)
           (Dec.mk false 30000 (-2)) "pending"),
     add_booking demo_store
       (mkBooking 1 1 7 (mkdate 2024 3 1) (mkdate 2024 3 4)
          (Dec.mk false 30000 (-2)) "pending"))
  /\ createBooking 1 7 (mkdate 2024 3 1) (mkdate 2024 3 4)
       (add_booking demo_store
          (mkBooking 1 1 7 (mkdate 2024 3 1) (mkdate 2024 3 4)
             (Dec.mk false 30000 (-2)) "pending"))
     = (Raise (ValidationError msg_dates),
        add_booking demo_store
          (mkBooking 1 1 7 (mkdate 2024 3 1) (mkdate 2024 3 4)
             (Dec.mk false 30000 (-2)) "pending")).
Proof.
  destruct (booking_accepted_then_blocks demo_store demo_listing 7
              (mkdate 2024 3 1) (mkdate 2024 3 4)) as [Hok Hblock].
  - split.
    + cbn. constructor; [intros []|constructor].
    + repeat constructor.
  - left. reflexivity.
  - reflexivity.
  - left. reflexivity.
  - reflexivity.
  - vm_compute. reflexivity.
  - intros b [].
  - split; [exact Hok|]. apply Hblock. vm_compute. reflexivity.
Defined.

(** ** Reviews and listing summaries *)



Lemma sum_Z_app (l1 l2 : list Z) : sum_Z (l1 ++ l2) = sum_Z l1 + sum_Z l2.
Proof.
  unfold sum_Z. induction l1 as [|x l1 IH]; cbn [app fold_right]; lia.
Qed.

Lemma reviews_of_add_review (obj : Listing) (s : Store) (r : Review) :
  ListingSerializer.reviews_of obj (add_review s r)
  = (ListingSerializer.reviews_of obj s
     ++ (if review_listing r =? listing_pk obj then [r] else []))%list.
Proof.
  unfold ListingSerializer.reviews_of, add_review. cbn [reviews].
  rewrite filter_app. reflexivity.
Qed.

(** X7. Storing a review of a listing raises its review count by one and
    turns its average rating into the old sum plus the new rating, divided
    by the new count; the count and the average of every other listing stay
    as they were. *)
Theorem new_review_updates_listing_summary :
  forall (obj : Listing) (s : Store) (r : Review),
    (review_listing r = listing_pk obj ->
     ListingSerializer.get_total_reviews obj (add_review s r)
     = (Ok (Z.of_nat (List.length (ListingSerializer.reviews_of obj s)) + 1),
        add_review s r)
     /\ ListingSerializer.get_average_rating obj (add_review s r)
        = (Ok (PyFloat
                 (inject_Z (sum_Z (map rating (ListingSerializer.reviews_of obj s))
                            + rating r)
                  / inject_Z (Z.of_nat
                                (List.length (ListingSerializer.reviews_of obj s))
                              + 1))),
           add_review s r))
    /\ (review_listing r <> listing_pk obj ->
        fst (ListingSerializer.get_total_reviews obj (add_review s r))
        = fst (ListingSerializer.get_total_reviews obj s)
        /\ fst (ListingSerializer.get_average_rating obj (add_review s r))
           = fst (ListingSerializer.get_average_rating obj s)).
Proof.
  intros obj s r. split; intros Hl.
  - unfold ListingSerializer.get_total_reviews,
      ListingSerializer.get_average_rating. run_py.
    rewrite reviews_of_add_review, Hl, Z.eqb_refl.
    set (old := ListingSerializer.reviews_of obj s).
    assert (Hlen : Z.of_nat (List.length (old ++ [r])%list)
                   = Z.of_nat (List.length old) + 1).
    { rewrite length_app. cbn [List.length]. lia. }
    assert (Hsum : sum_Z (map rating (old ++ [r])%list)
                   = sum_Z (map rating old) + rating r).
    { rewrite map_app, sum_Z_app. cbn. lia. }
    split; [now rewrite Hlen|].
    destruct (old ++ [r])%list as [|x rest] eqn:E.
    + destruct old; discriminate.
    + unfold truediv. rewrite length_cons_nonzero. unfold ret.
      now rewrite Hlen, Hsum.
  - unfold ListingSerializer.get_total_reviews,
      ListingSerializer.get_average_rating. run_py.
    rewrite reviews_of_add_review.
    destruct (Z.eqb_spec (review_listing r) (listing_pk obj)) as [|_];
      [contradiction|].
    rewrite app_nil_r. split; [reflexivity|].
    destruct (ListingSerializer.reviews_of obj s); reflexivity.
Qed.

(** X7 on listing 1 of the store where it has one review rated 4: a
    review rated 5 makes two reviews averaging 9/2. *)
Lemma new_review_updates_listing_summary_witness :
  ListingSerializer.get_total_reviews demo_listing
    (add_review two_listing_store (mkReview 2 1 8 5 "Excellent"))
  = (Ok 2, add_review two_listing_store (mkReview 2 1 8 5 "Excellent"))
  /\ ListingSerializer.get_average_rating demo_listing
       (add_review two_listing_store (mkReview 2 1 8 5 "Excellent"))
     = (Ok (PyFloat (inject_Z 9 / inject_Z 2)),
        add_review two_listing_store (mkReview 2 1 8 5 "Excellent")).
Proof.
  apply (proj1 (new_review_updates_listing_summary demo_listing
                  two_listing_store (mkReview 2 1 8 5 "Excellent"))).
  reflexivity.
Defined.

(** X8. When every stored rating lies between [lo] and [hi], as the
    validators of the rating field ask, the average rating of a listing
    that has reviews lies between [lo] and [hi] too. *)
Theorem average_rating_within_rating_bounds :
  forall (obj : Listing) (s : Store) (lo hi : Z) (q : Q),
    Forall (fun r => lo <= rating r <= hi) (reviews s) ->
    fst (ListingSerializer.get_average_rating obj s) = Ok (PyFloat q) ->
    (inject_Z lo <= q <= inject_Z hi)%Q.
Proof.
  intros obj s lo hi q Hall.
  unfold ListingSerializer.get_average_rating. run_py.
  assert (Hsub : Forall (fun r => lo <= rating r <= hi)
                        (ListingSerializer.reviews_of obj s)).
  { rewrite Forall_forall in *. intros r Hr. apply Hall.
    unfold ListingSerializer.reviews_of in Hr. now apply filter_In in Hr. }
  destruct (ListingSerializer.reviews_of obj s) as [|r rs] eqn:E;
    [discriminate|].
  unfold truediv. rewrite length_cons_nonzero. unfold ret. cbn [fst].
  intros [= <-].
  set (l := r :: rs) in *.
  assert (Hn : 0 < Z.of_nat (List.length l)) by (unfold l; cbn [List.length]; lia).
  assert (Hbounds : lo * Z.of_nat (List.length l) <= sum_Z (map rating l)
                    <= hi * Z.of_nat (List.length l)).
  { clearbody l. clear E Hn. unfold sum_Z.
    induction Hsub as [|x xs Hx _ IH]; cbn [map fold_right List.length]; [lia|].
    rewrite Nat2Z.inj_succ, !Z.mul_succ_r. lia. }
  assert (HnQ : (0 < inject_Z (Z.of_nat (List.length l)))%Q)
    by (rewrite <- (Zlt_Qlt 0); exact Hn).
  split.
  - apply Qle_shift_div_l; [exact HnQ|].
    rewrite <- inject_Z_mult, <- Zle_Qle. exact (proj1 Hbounds).
  - apply Qle_shift_div_r; [exact HnQ|].
    rewrite <- inject_Z_mult, <- Zle_Qle. exact (proj2 Hbounds).
Qed.

(** X8 on the listing rated 4 and 5, with the bounds 1 and 5 of the rating
    field. *)
Lemma average_rating_within_rating_bounds_witness :
  (inject_Z 1 <= inject_Z 9 / inject_Z 2 <= inject_Z 5)%Q.
Proof.
  apply (average_rating_within_rating_bounds demo_listing reviewed_store 1 5).
  - repeat constructor; cbn; lia.
  - reflexivity.
Defined.

(** * Further properties of the seeding command *)

Lemma choice_cases {A : Type} (seq : list A) (draw : nat) (s : Store) :
  (seq = [] /\ choice seq draw s = (Raise IndexError, s))
  \/ (exists a, In a seq /\ choice seq draw s = (Ok a, s)).
Proof.
  unfold choice. destruct seq as [|x seq]; [left; now destruct draw|right].
  destruct (nth_error (x :: seq) (draw mod List.length (x :: seq))) as [a|] eqn:E.
  - exists a. split; [now apply nth_error_In in E|reflexivity].
  - exfalso. apply nth_error_None in E.
    pose proof (Nat.mod_upper_bound draw (List.length (x :: seq))) as Hlt.
    cbn [List.length] in *. lia.
Qed.

Lemma round2_store (d : Decimal) (s : Store) : snd (round2 d s) = s.
Proof. unfold round2. destruct (Dec.quantize _ _ _); reflexivity. Qed.

(** ** Bookings *)

(** One iteration of the booking loop over available listings whose
    prices fit and over stored users stores one booking. *)
Lemma create_booking_step_runs
      (av : list Listing) (us : list Z) (d : Command.BookingDraw) (s : Store) :
  av <> [] -> us <> [] ->
  (forall l, In l av ->
             In l (listings s) /\ is_available l = true
             /\ Dec.dexp (price_per_night l) = -2
             /\ Z.of_N (Dec.dint (price_per_night l)) * 14 < 10 ^ 10) ->
  (forall u, In u us -> In u (users s)) ->
  drawn_nights_ok d ->
  exists l g st,
    In l av /\ In g us /\ In st ["pending"; "confirmed"; "completed"]
    /\ Command.create_booking_step av us d s
       = (Ok (mkBooking (next_pk (map booking_pk (bookings s)))
                (listing_pk l) g (Command.bd_start d)
                (Command.bd_start d + Command.bd_nights d)
                (exact_product (price_per_night l) (Command.bd_nights d)) st),
          add_booking s
            (mkBooking (next_pk (map booking_pk (bookings s)))
               (listing_pk l) g (Command.bd_start d)
               (Command.bd_start d + Command.bd_nights d)
               (exact_product (price_per_night l) (Command.bd_nights d)) st)).
Proof.
  intros Hav_ne Hus_ne Hav Hus [Hlo Hhi].
  unfold Command.create_booking_step, bind.
  destruct (choice_cases av (Command.bd_listing d) s) as [[H _]|(l & Hl & ->)];
    [contradiction|].
  destruct (choice_cases us (Command.bd_guest d) s) as [[H _]|(g & Hg & ->)];
    [contradiction|].
  destruct (Hav l Hl) as (Hin & _ & Hexp & Hfit).
  set (n := Command.bd_nights d) in *.
  assert (Hcoef : Z.of_N (Dec.dint (price_per_night l) * Z.abs_N n) < 10 ^ 10).
  { rewrite N2Z.inj_mul, N2Z.inj_abs_N, Z.abs_eq by lia.
    pose proof (N2Z.is_nonneg (Dec.dint (price_per_night l))) as H0.
    assert (Z.of_N (Dec.dint (price_per_night l)) * n
            <= Z.of_N (Dec.dint (price_per_night l)) * 14)
      by (apply Z.mul_le_mono_nonneg_l; lia).
    lia. }
  assert (Hbig : 10 ^ 10 < 10 ^ Dec.prec) by (vm_compute; reflexivity).
  assert (Hmul : total_price_for_nights l n = exact_product (price_per_night l) n).
  { unfold total_price_for_nights. apply mul_of_int_exact.
    rewrite N2Z.inj_mul, N2Z.inj_abs_N in Hcoef. lia. }
  rewrite Hmul. unfold round2, exact_product. rewrite Hexp.
  rewrite quantize_fits; [|unfold Dec.prec; lia|lia].
  unfold ret. cbv beta iota.
  destruct (choice_cases ["pending"; "confirmed"; "completed"]
              (Command.bd_status d) s) as [[H _]|(st & Hst & ->)];
    [discriminate|].
  exists l, g, st. repeat split; try assumption.
  unfold Booking_objects_create, adapt_decimalfield_value. run_py.
  change (- (2)) with (-2). rewrite quantize_fits; [|lia|exact Hcoef].
  assert (H1 : mem_pk (listing_pk l) (map listing_pk (listings s)) = true)
    by (apply mem_pk_true_iff; now apply in_map).
  assert (H2 : mem_pk g (users s) = true)
    by (apply mem_pk_true_iff; now apply Hus).
  rewrite H1, H2. cbn [andb negb]. unfold insert_booking.
  rewrite ?Hexp. reflexivity.
Qed.

Lemma create_bookings_loop_runs
      (av : list Listing) (us : list Z) (draws : list Command.BookingDraw) :
  av <> [] -> us <> [] ->
  forall s,
    Forall drawn_nights_ok draws ->
    (forall l, In l av ->
               In l (listings s) /\ is_available l = true
               /\ Dec.dexp (price_per_night l) = -2
               /\ Z.of_N (Dec.dint (price_per_night l)) * 14 < 10 ^ 10) ->
    (forall u, In u us -> In u (users s)) ->
    exists added,
      Command.create_bookings_loop av us draws s
      = (Ok tt, mkStore (users s) (listings s) (bookings s ++ added) (reviews s))
      /\ List.length added = List.length draws
      /\ Forall (fun b =>
                   seeded_booking s b
                   /\ exists l,
                        In l (listings s) /\ booking_listing b = listing_pk l
                        /\ total_price b
                           = exact_product (price_per_night l) (nights_booked b))
                added.
Proof.
  intros Hav_ne Hus_ne.
  induction draws as [|d rest IH]; intros s Hn Hav Hus;
    cbn [Command.create_bookings_loop].
  - exists []. rewrite app_nil_r. destruct s.
    split; [reflexivity|split; [reflexivity|constructor]].
  - inversion Hn as [|? ? Hd Hrest]; subst. unfold bind.
    destruct (create_booking_step_runs av us d s Hav_ne Hus_ne Hav Hus Hd)
      as (l & g & st & Hl & Hg & Hst & ->).
    set (b := mkBooking _ _ _ _ _ _ _).
    destruct (IH (add_booking s b) Hrest Hav Hus)
      as (added & -> & Hlen & Hall).
    exists (b :: added). split; [|split].
    + unfold add_booking. cbn [users listings bookings reviews].
      now rewrite <- app_assoc.
    + cbn [List.length]. now rewrite Hlen.
    + destruct (Hav l Hl) as (Hin & Havl & _ & _). destruct Hd as [Hlo Hhi].
      assert (Hnights : nights_booked b = Command.bd_nights d)
        by (unfold b, nights_booked, days_between;
            cbn [check_in_date check_out_date]; lia).
      constructor.
      * split.
        -- unfold seeded_booking. rewrite Hnights. unfold b.
           cbn [booking_listing guest status].
           repeat split; try assumption; try (now apply Hus).
           exists l. auto.
        -- exists l. rewrite Hnights. unfold b.
           cbn [booking_listing total_price]. auto.
      * revert Hall. apply Forall_impl. intros x Hx. exact Hx.
Qed.

(** X9. Seeding bookings on a store with at least one user, with listing
    prices whose 14-night total fits the total price column, runs to the
    end whatever is drawn: it only appends booking rows, exactly one per
    iteration when a listing is available.  Every row it adds is on a
    listing that was available, for a stored guest, with status pending,
    confirmed or completed, never cancelled, and lasts 2 to 14 nights, so
    [Booking.clean] accepts its dates.  Without an available listing it
    returns at once and adds nothing; with an available listing but no user
    the first iteration raises IndexError and nothing is stored. *)
Theorem seeded_bookings_are_well_formed :
  (forall (draws : list Command.BookingDraw) (s : Store),
      Forall drawn_nights_ok draws ->
      seed_prices_fit s ->
      users s <> [] ->
      exists added,
        Command._create_bookings draws s
        = (Ok tt,
           mkStore (users s) (listings s) (bookings s ++ added) (reviews s))
        /\ (filter is_available (listings s) <> [] ->
            List.length added = List.length draws)
        /\ Forall (fun b =>
                     seeded_booking s b
                     /\ status b <> "cancelled"
                     /\ clean (check_in_date b) (check_out_date b) s
                        = (Ok tt, s)) added)
  /\ (forall (draws : list Command.BookingDraw) (s : Store),
         filter is_available (listings s) = [] ->
         Command._create_bookings draws s = (Ok tt, s))
  /\ (forall (d : Command.BookingDraw) (rest : list Command.BookingDraw)
             (s : Store),
         users s = [] -> filter is_available (listings s) <> [] ->
         Command._create_bookings (d :: rest) s = (Raise IndexError, s)).
Proof.
  split; [|split].
  - intros draws s Hn Hfit Hus. unfold Command._create_bookings. run_py.
    destruct (filter is_available (listings s)) as [|l0 av] eqn:E.
    + exists []. rewrite app_nil_r. destruct s.
      split; [reflexivity|split; [intros H; now elim H|constructor]].
    + assert (Hne : l0 :: av <> []) by discriminate.
      destruct (create_bookings_loop_runs (l0 :: av) (users s) draws Hne Hus s Hn)
        as (added & Hrun & Hlen & Hall).
      * intros l Hl. rewrite <- E in Hl. apply filter_In in Hl.
        destruct Hl as [Hin Hav]. unfold seed_prices_fit in Hfit.
        rewrite Forall_forall in Hfit. destruct (Hfit l Hin). auto.
      * auto.
      * exists added. split; [exact Hrun|]. split; [intros _; exact Hlen|].
        revert Hall. apply Forall_impl. intros b [Hb' _]. split; [exact Hb'|].
        destruct Hb' as (_ & _ & Hst & Hnights). split.
        -- intros Hc. rewrite Hc in Hst.
           destruct Hst as [H|[H|[H|[]]]]; discriminate.
        -- unfold clean, nights_booked, days_between in *.
           destruct (Z.leb_spec (check_out_date b) (check_in_date b));
             [lia|reflexivity].
  - intros draws s E. unfold Command._create_bookings. run_py. now rewrite E.
  - intros d rest s Hus Hav. unfold Command._create_bookings. run_py.
    destruct (filter is_available (listings s)) as [|l0 av]; [contradiction|].
    cbn [Command.create_bookings_loop].
    unfold bind, Command.create_booking_step, bind.
    destruct (choice_cases (l0 :: av) (Command.bd_listing d) s)
      as [[H _]|(l & _ & ->)]; [discriminate|].
    rewrite Hus.
    destruct (choice_cases (@nil Z) (Command.bd_guest d) s)
      as [[_ ->]|(u & [] & _)].
    reflexivity.
Qed.

(** X9 on two iterations over the store of the examples. *)
Lemma seeded_bookings_are_well_formed_witness :
  exists added,
    Command._create_bookings [same_draw; same_draw] demo_store
    = (Ok tt,
       mkStore (users demo_store) (listings demo_store)
         (bookings demo_store ++ added) (reviews demo_store))
    /\ (filter is_available (listings demo_store) <> [] ->
        List.length added = 2%nat)
    /\ Forall (fun b =>
                 seeded_booking demo_store b
                 /\ status b <> "cancelled"
                 /\ clean (check_in_date b) (check_out_date b) demo_store
                    = (Ok tt, demo_store)) added.
Proof.
  apply (proj1 seeded_bookings_are_well_formed [same_draw; same_draw]
           demo_store).
  - repeat constructor; vm_compute; discriminate.
  - repeat constructor.
  - discriminate.
Defined.

(** ** Reviews *)

(** One iteration of the review loop over stored listings and users
    returns: either it skips the draw or it stores one review. *)
Lemma create_review_step_cases
      (ls : list Listing) (us : list Z) (d : Command.ReviewDraw) (s : Store) :
  ls <> [] -> us <> [] ->
  (forall l, In l ls -> In (listing_pk l) (map listing_pk (listings s))) ->
  (forall u, In u us -> In u (users s)) ->
  Command.create_review_step ls us d s = (Ok tt, s)
  \/ (exists l u,
         In l ls /\ In u us
         /\ ReviewSerializer.review_exists (listing_pk l) u s = false
         /\ Command.create_review_step ls us d s
            = (Ok tt,
               add_review s
                 (mkReview (next_pk (map review_pk (reviews s))) (listing_pk l)
                    u (Command.rd_rating d) (Command.rd_comment d)))).
Proof.
  intros Hls Hus Hin_l Hin_u. unfold Command.create_review_step, bind.
  destruct (choice_cases ls (Command.rd_listing d) s) as [[H _]|(l & Hl & ->)];
    [contradiction|].
  destruct (choice_cases us (Command.rd_user d) s) as [[H _]|(u & Hu & ->)];
    [contradiction|].
  unfold query.
  destruct (ReviewSerializer.review_exists (listing_pk l) u s) eqn:Hdup;
    [left; reflexivity|].
  right. exists l, u. repeat split; try assumption.
  unfold Review_objects_create. run_py.
  pose proof (proj2 (mem_pk_true_iff _ _) (Hin_l l Hl)) as H1.
  pose proof (proj2 (mem_pk_true_iff _ _) (Hin_u u Hu)) as H2.
  rewrite H1, H2. cbn [andb negb].
  unfold ReviewSerializer.review_exists in Hdup. rewrite Hdup.
  reflexivity.
Qed.

Lemma create_reviews_loop_returns
      (ls : list Listing) (us : list Z) (draws : list Command.ReviewDraw) :
  ls <> [] -> us <> [] ->
  forall s,
    (forall l, In l ls -> In (listing_pk l) (map listing_pk (listings s))) ->
    (forall u, In u us -> In u (users s)) ->
    exists s',
      Command.create_reviews_loop ls us draws s = (Ok tt, s')
      /\ users s' = users s /\ listings s' = listings s
      /\ bookings s' = bookings s
      /\ exists added,
           reviews s' = (reviews s ++ added)%list
           /\ (List.length added <= List.length draws)%nat
           /\ Forall (fun r =>
                        (exists l, In l ls /\ review_listing r = listing_pk l)
                        /\ In (review_user r) us
                        /\ exists d, In d draws
                                     /\ rating r = Command.rd_rating d) added.
Proof.
  intros Hls Hus.
  induction draws as [|d rest IH]; intros s Hin_l Hin_u;
    cbn [Command.create_reviews_loop].
  - exists s. repeat split. exists []. rewrite app_nil_r.
    split; [reflexivity|split; [cbn; lia|constructor]].
  - unfold bind.
    destruct (create_review_step_cases ls us d s Hls Hus Hin_l Hin_u)
      as [->|(l & u & Hl & Hu & _ & ->)].
    + destruct (IH s Hin_l Hin_u)
        as (s' & -> & Hu' & Hl' & Hb' & added & Hr & Hlen & Hall).
      exists s'. repeat split; try assumption.
      exists added. split; [assumption|]. split; [cbn [List.length]; lia|].
      revert Hall. apply Forall_impl.
      intros r (H1 & H2 & d' & Hd' & Hrt). repeat split; try assumption.
      exists d'. split; [now right|assumption].
    + set (r := mkReview _ _ _ _ _).
      destruct (IH (add_review s r) Hin_l Hin_u)
        as (s' & -> & Hu' & Hl' & Hb' & added & Hr & Hlen & Hall).
      exists s'. repeat split; try assumption.
      exists (r :: added). split; [|split].
      * rewrite Hr. unfold add_review. cbn [reviews]. now rewrite <- app_assoc.
      * cbn [List.length]. lia.
      * constructor.
        -- unfold r. cbn [review_listing review_user rating].
           repeat split; try assumption.
           ++ exists l. auto.
           ++ exists d. split; [now left|reflexivity].
        -- revert Hall. apply Forall_impl.
           intros x (H1 & H2 & d' & Hd' & Hrt). repeat split; try assumption.
           exists d'. split; [now right|assumption].
Qed.

(** X10. On a store with at least one user, seeding reviews always runs
    to the end, whatever is drawn: the duplicate test of the loop keeps the
    uniqueness constraint from ever firing.  It only appends reviews, at
    most one per iteration, each of a stored listing by a stored user with
    the drawn rating.  With listings but no user, the first iteration
    raises IndexError and nothing is stored. *)
Theorem seeding_reviews_never_fails :
  (forall (draws : list Command.ReviewDraw) (s : Store),
      users s <> [] ->
      exists s',
        Command._create_reviews draws s = (Ok tt, s')
        /\ users s' = users s /\ listings s' = listings s
        /\ bookings s' = bookings s
        /\ exists added,
             reviews s' = (reviews s ++ added)%list
             /\ (List.length added <= List.length draws)%nat
             /\ Forall (fun r =>
                          In (review_listing r) (map listing_pk (listings s))
                          /\ In (review_user r) (users s)
                          /\ exists d, In d draws
                                       /\ rating r = Command.rd_rating d)
                       added)
  /\ (forall (d : Command.ReviewDraw) (rest : list Command.ReviewDraw)
             (s : Store),
         users s = [] -> listings s <> [] ->
         Command._create_reviews (d :: rest) s = (Raise IndexError, s)).
Proof.
  split.
  - intros draws s Hus. unfold Command._create_reviews. run_py.
    destruct (listings s) as [|l0 ls] eqn:E.
    + exists s. repeat split; [exact E|]. exists []. rewrite app_nil_r.
      split; [reflexivity|split; [cbn; lia|constructor]].
    + assert (Hne : l0 :: ls <> []) by discriminate.
      destruct (create_reviews_loop_returns (l0 :: ls) (users s) draws Hne Hus s)
        as (s' & Hrun & Hu & Hl & Hb & added & Hr & Hlen & Hall).
      * intros l Hl. rewrite E. now apply in_map.
      * auto.
      * exists s'. rewrite E in Hl. repeat split; try assumption.
        exists added. repeat split; try assumption.
        revert Hall. apply Forall_impl.
        intros r ((l & Hl' & Hpk) & H2 & H3). repeat split; try assumption.
        rewrite Hpk. now apply in_map.
  - intros d rest s Hus Hls. unfold Command._create_reviews. run_py.
    destruct (listings s) as [|l0 ls]; [contradiction|].
    cbn [Command.create_reviews_loop]. unfold bind, Command.create_review_step, bind.
    destruct (choice_cases (l0 :: ls) (Command.rd_listing d) s)
      as [[H _]|(l & _ & ->)]; [discriminate|].
    rewrite Hus.
    destruct (choice_cases (@nil Z) (Command.rd_user d) s)
      as [[_ ->]|(u & [] & _)].
    reflexivity.
Qed.

(** X10 on the store with two reviews: three draws, the first two of
    pairs that exist already. *)
Lemma seeding_reviews_never_fails_witness :
  exists s',
    Command._create_reviews
      [Command.mkReviewDraw 0 0 3 "a"; Command.mkReviewDraw 0 1 2 "b";
       Command.mkReviewDraw 0 0 1 "c"] reviewed_store
    = (Ok tt, s')
    /\ users s' = users reviewed_store.
Proof.
  destruct (proj1 seeding_reviews_never_fails
              [Command.mkReviewDraw 0 0 3 "a"; Command.mkReviewDraw 0 1 2 "b";
               Command.mkReviewDraw 0 0 1 "c"] reviewed_store)
    as (s' & Hrun & Hu & _).
  - discriminate.
  - exists s'. split; assumption.
Defined.

(** ** Listings *)

(** X11. Seeding listings stores nothing: with at least one iteration
    asked for, [_create_listings] raises AttributeError in the first one,
    at [fake.real_estate_type()], before anything is drawn or stored; with no
    iteration it returns.  Either way the store is left as it was. *)
Theorem seeding_listings_raises_at_once :
  (forall (d : Command.ListingDraw) (rest : list Command.ListingDraw)
          (s : Store),
      Command._create_listings (d :: rest) s = (Raise AttributeError, s))
  /\ (forall s : Store, Command._create_listings [] s = (Ok tt, s))
  /\ (forall (draws : list Command.ListingDraw) (s : Store),
         exec (SeedListings draws) s = s).
Proof.
  split; [|split].
  - intros d rest s. reflexivity.
  - intros s. reflexivity.
  - intros draws s. destruct draws; reflexivity.
Qed.

(** * Further invariants of all write paths *)

Lemma references_insert_listing (price : Decimal) (own : Z) (available : bool) :
  preserves references_ok (Listing_objects_create price own available).
Proof.
  intros s (Hl & Hb & Hr).
  unfold Listing_objects_create, adapt_decimalfield_value. run_py.
  destruct (Dec.quantize _ _ _) as [q|]; [|now repeat split].
  destruct (mem_pk own (users s)) eqn:Hown; cbn [negb snd];
    [|now repeat split].
  apply mem_pk_true_iff in Hown.
  unfold references_ok, insert_listing, add_listing.
  cbn [snd users listings bookings reviews].
  split; [|split].
  - apply Forall_app. split; [exact Hl|]. constructor; [exact Hown|constructor].
  - revert Hb. apply Forall_impl. intros b [H1 H2]. split; [|exact H2].
    rewrite map_app. apply in_or_app. now left.
  - revert Hr. apply Forall_impl. intros r [H1 H2]. split; [|exact H2].
    rewrite map_app. apply in_or_app. now left.
Qed.

Lemma references_insert_booking (l g : option Z) (ci co : option date)
      (p : option Decimal) (st : option string) :
  preserves references_ok (Booking_objects_create l g ci co p st).
Proof.
  intros s (Hl & Hb & Hr). unfold Booking_objects_create.
  destruct l as [lk|]; [|now repeat split].
  destruct g as [gk|]; [|now repeat split].
  destruct ci as [i|]; [|now repeat split].
  destruct co as [o|]; [|now repeat split].
  destruct p as [pr|]; [|now repeat split].
  unfold adapt_decimalfield_value. run_py.
  destruct (Dec.quantize _ _ _) as [q|]; [|now repeat split].
  destruct (mem_pk lk (map listing_pk (listings s))) eqn:H1; cbn [andb];
    [|now repeat split].
  destruct (mem_pk gk (users s)) eqn:H2; cbn [negb snd]; [|now repeat split].
  apply mem_pk_true_iff in H1. apply mem_pk_true_iff in H2.
  unfold references_ok, insert_booking, add_booking.
  cbn [snd users listings bookings reviews].
  split; [exact Hl|split; [|exact Hr]].
  apply Forall_app. split; [exact Hb|].
  constructor; [now split|constructor].
Qed.

Lemma references_insert_review (l : option Z) (u : Z) (r : option Z)
      (c : option string) :
  preserves references_ok (Review_objects_create l u r c).
Proof.
  intros s (Hl & Hb & Hr). unfold Review_objects_create.
  destruct l as [lk|]; [|now repeat split].
  destruct r as [rt|]; [|now repeat split].
  destruct c as [cm|]; [|now repeat split].
  run_py.
  destruct (mem_pk lk (map listing_pk (listings s))) eqn:H1; cbn [andb];
    [|now repeat split].
  destruct (mem_pk u (users s)) eqn:H2; cbn [negb snd]; [|now repeat split].
  destruct (existsb _ (reviews s)); [now repeat split|].
  apply mem_pk_true_iff in H1. apply mem_pk_true_iff in H2.
  unfold references_ok, insert_review, add_review.
  cbn [snd users listings bookings reviews].
  split; [exact Hl|split; [exact Hb|]].
  apply Forall_app. split; [exact Hr|].
  constructor; [now split|constructor].
Qed.

(** X12. Referential integrity is kept by every write path: if every
    listing has a stored owner, every booking a stored listing and guest,
    and every review a stored listing and user, the same holds after any
    sequence of serializer requests and seeding runs; it holds of the empty
    store. *)
Theorem foreign_keys_stay_valid :
  (forall (ops : list Op) (s : Store),
      references_ok s -> references_ok (exec_all ops s))
  /\ (forall ops : list Op, references_ok (exec_all ops empty_store)).
Proof.
  assert (H : forall ops s, references_ok s -> references_ok (exec_all ops s)).
  { intros ops s. apply exec_all_preserves.
    - exact references_insert_listing.
    - exact references_insert_booking.
    - exact references_insert_review. }
  split; [exact H|]. intros ops. apply H. repeat constructor.
Qed.

(** X12 on the store with two listings, after a booking request and a
    seeding run. *)
Lemma foreign_keys_stay_valid_witness :
  references_ok
    (exec_all [create_booking_op 1 8 (mkdate 2024 3 5) (mkdate 2024 3 8) None;
               SeedReviews [Command.mkReviewDraw 1 1 5 "Quiet"]]
              two_listing_store).
Proof.
  apply (proj1 foreign_keys_stay_valid).
  unfold references_ok, two_listing_store.
  cbn [users listings bookings reviews map listing_pk demo_listing demo_booking
       owner booking_listing guest review_listing review_user].
  repeat constructor; cbn; tauto.
Defined.

Lemma seed_listings_store (draws : list Command.ListingDraw) (s : Store) :
  snd (Command._create_listings draws s) = s.
Proof. destruct draws; reflexivity. Qed.

(** X13. No modelled write path writes the listing table: after any
    sequence of booking requests, review requests and seeding runs, the
    stored listings are the ones the sequence started from, so whatever held
    of their keys, prices and availability flags still holds. *)
Theorem listing_table_never_written :
  forall (ops : list Op) (s : Store),
    listings (exec_all ops s) = listings s.
Proof.
  intros ops. unfold exec_all.
  induction ops as [|o ops IH]; intros s; cbn [fold_left]; [reflexivity|].
  rewrite IH.
  assert (Hb : forall l g ci co p st,
             preserves (fun st' => listings st' = listings s)
                       (Booking_objects_create l g ci co p st)).
  { intros l g ci co p st s0 H0. rewrite <- H0.
    apply (proj1 (booking_insert_frame l g ci co p st s0)). }
  assert (Hr : forall l u r c,
             preserves (fun st' => listings st' = listings s)
                       (Review_objects_create l u r c)).
  { intros l u r c s0 H0. rewrite <- H0. apply review_insert_frame. }
  destruct o; cbn [exec].
  - now apply (preserves_booking_request _ Hb).
  - now apply (preserves_review_request _ Hr).
  - now rewrite seed_listings_store.
  - now apply (preserves_create_bookings _ Hb).
  - now apply (preserves_create_reviews _ Hr).
Qed.

(** * Further properties of the pricing calculator *)

Lemma fix_negate (d : Decimal) : Dec.fix_ (negate d) = negate (Dec.fix_ d).
Proof.
  unfold Dec.fix_, negate. cbn [Dec.dint Dec.dexp Dec.dsign].
  destruct (Dec.dint d =? 0)%N; [reflexivity|].
  destruct (Dec.dexp d <? _); [|reflexivity].
  destruct (_ <=? _)%N; reflexivity.
Qed.

Lemma value_negate (d : Decimal) : (Dec.value (negate d) == - Dec.value d)%Q.
Proof.
  unfold Dec.value, negate. cbn [Dec.dint Dec.dexp Dec.dsign].
  destruct (Dec.dsign d); cbn [negb]; ring.
Qed.

(** X14. For the price of a stored listing (at most ten digits) and any
    two dates, in either order, the price of the stay is computed without
    rounding: it is the exact product of the nightly price and the day
    difference. *)
Theorem stay_price_exact_for_all_dates :
  forall (l : Listing) (check_in check_out : date),
    Z.of_N (Dec.dint (price_per_night l)) < 10 ^ 10 ->
    valid_date check_in -> valid_date check_out ->
    total_price_for_nights l (days_between check_in check_out)
    = exact_product (price_per_night l) (days_between check_in check_out)
    /\ (Dec.value (total_price_for_nights l (days_between check_in check_out))
        == Dec.value (price_per_night l)
           * inject_Z (days_between check_in check_out))%Q.
Proof.
  intros l ci co Hp Hci Hco. unfold valid_date, days_between in *.
  assert (Hex : total_price_for_nights l (co - ci)
                = exact_product (price_per_night l) (co - ci)).
  { unfold total_price_for_nights. apply mul_of_int_exact.
    change (10 ^ 10) with 10000000000 in Hp.
    change (10 ^ Dec.prec) with 10000000000000000000000000000.
    assert (Hn : Z.abs (co - ci) < 10000000) by lia.
    pose proof (N2Z.is_nonneg (Dec.dint (price_per_night l))) as H0.
    assert (Z.of_N (Dec.dint (price_per_night l)) * Z.abs (co - ci)
            <= 10000000000 * 10000000) by (apply Z.mul_le_mono_nonneg; lia).
    lia. }
  split; [exact Hex|]. rewrite Hex. apply exact_product_value.
Qed.

(** X14 at 100.00 per night from 2024-03-01 to 2024-03-04. *)
Lemma stay_price_exact_for_all_dates_witness :
  total_price_for_nights demo_listing
    (days_between (mkdate 2024 3 1) (mkdate 2024 3 4))
  = exact_product (price_per_night demo_listing)
      (days_between (mkdate 2024 3 1) (mkdate 2024 3 4)).
Proof.
  apply (stay_price_exact_for_all_dates demo_listing (mkdate 2024 3 1)
           (mkdate 2024 3 4)); vm_compute; split; discriminate || reflexivity.
Defined.

(** X15. The pricing calculator accepts a negative night count and
    mirrors the price: for [n] other than 0 the price of [-n] nights is the
    price of [n] nights with the opposite sign, rounding included, and in
    value the price of [-n] nights is minus the price of [n] nights for
    every [n]. *)
Theorem negative_nights_mirror_price :
  forall (l : Listing) (n : Z),
    (n <> 0 ->
     total_price_for_nights l (- n) = negate (total_price_for_nights l n))
    /\ (Dec.value (total_price_for_nights l (- n))
        == - Dec.value (total_price_for_nights l n))%Q.
Proof.
  intros l n.
  assert (Hneg : n <> 0 ->
                 total_price_for_nights l (- n)
                 = negate (total_price_for_nights l n)).
  { intros Hn. unfold total_price_for_nights, Dec.mul, Dec.of_int.
    cbn [Dec.dint Dec.dexp Dec.dsign].
    rewrite <- fix_negate. unfold negate. cbn [Dec.dint Dec.dexp Dec.dsign].
    replace (Z.abs_N (- n)) with (Z.abs_N n)
      by (apply N2Z.inj; rewrite !N2Z.inj_abs_N; lia).
    replace (- n <? 0) with (negb (n <? 0))
      by (destruct (Z.ltb_spec n 0), (Z.ltb_spec (- n) 0); cbn; lia || reflexivity).
    now destruct (Dec.dsign (price_per_night l)), (n <? 0). }
  split; [exact Hneg|].
  destruct (Z.eq_dec n 0) as [->|Hn].
  - change (- 0) with 0.
    unfold total_price_for_nights, Dec.mul, Dec.of_int, Dec.fix_, Dec.value.
    cbn [Dec.dint Dec.dexp Dec.dsign Z.abs_N]. rewrite N.mul_0_r.
    cbn [N.eqb Dec.dint Dec.dexp Dec.dsign]. cbn [Z.of_N]. ring.
  - rewrite (Hneg Hn). apply value_negate.
Qed.

(** X15 at 100.00 per night and 4 nights. *)
Lemma negative_nights_mirror_price_witness :
  total_price_for_nights demo_listing (- 4)
  = negate (total_price_for_nights demo_listing 4).
Proof.
  apply (proj1 (negative_nights_mirror_price demo_listing 4)). discriminate.
Defined.

(** X16. Seeded bookings are priced without rounding: when every
    listing price has two decimal places and its 14-night total fits the
    ten digits of the total price column, every booking row the seeding loop
    adds carries exactly the nightly price of its listing times its number
    of nights. *)
Theorem seeded_bookings_priced_exactly :
  forall (draws : list Command.BookingDraw) (s : Store),
    Forall drawn_nights_ok draws ->
    seed_prices_fit s ->
    users s <> [] ->
    exists added,
      bookings (snd (Command._create_bookings draws s))
      = (bookings s ++ added)%list
      /\ Forall (fun b =>
                   exists l,
                     In l (listings s) /\ booking_listing b = listing_pk l
                     /\ total_price b
                        = exact_product (price_per_night l) (nights_booked b)
                     /\ (Dec.value (total_price b)
                         == Dec.value (price_per_night l)
                            * inject_Z (nights_booked b))%Q)
                added.
Proof.
  intros draws s Hn Hfit Hus. unfold Command._create_bookings. run_py.
  destruct (filter is_available (listings s)) as [|l0 av] eqn:E.
  - exists []. cbn. rewrite app_nil_r. split; [reflexivity|constructor].
  - assert (Hne : l0 :: av <> []) by discriminate.
    destruct (create_bookings_loop_runs (l0 :: av) (users s) draws Hne Hus s Hn)
      as (added & Hrun & _ & Hall).
    + intros l Hl. rewrite <- E in Hl. apply filter_In in Hl.
      destruct Hl as [Hin Hav]. unfold seed_prices_fit in Hfit.
      rewrite Forall_forall in Hfit. destruct (Hfit l Hin). auto.
    + auto.
    + exists added. rewrite Hrun. split; [reflexivity|].
      revert Hall. apply Forall_impl.
      intros b (_ & l & Hin & Hpk & Hprice).
      exists l. repeat split; try assumption.
      rewrite Hprice. apply exact_product_value.
Qed.

(** X16 on two iterations over the store of the examples. *)
Lemma seeded_bookings_priced_exactly_witness :
  exists added,
    bookings (snd (Command._create_bookings [same_draw; same_draw] demo_store))
    = (bookings demo_store ++ added)%list
    /\ Forall (fun b =>
                 exists l,
                   In l (listings demo_store) /\ booking_listing b = listing_pk l
                   /\ total_price b
                      = exact_product (price_per_night l) (nights_booked b)
                   /\ (Dec.value (total_price b)
                       == Dec.value (price_per_night l)
                          * inject_Z (nights_booked b))%Q)
              added.
Proof.
  apply (seeded_bookings_priced_exactly [same_draw; same_draw] demo_store).
  - repeat constructor; vm_compute; discriminate.
  - repeat constructor.
  - discriminate.
Defined.

(** * Further properties of the validity check *)

Lemma overlapping_skips_nonconflicting
      (inst : option Booking) (lid : Z) (ci co : date)
      (us : list Z) (ls : list Listing) (rs : list Review)
      (before after : list Booking) (b : Booking) :
  BookingSerializer.conflicts lid ci co b = false ->
  BookingSerializer.overlapping_bookings inst lid ci co
    (mkStore us ls (before ++ b :: after) rs)
  = BookingSerializer.overlapping_bookings inst lid ci co
      (mkStore us ls (before ++ after) rs).
Proof.
  intros Hb. unfold BookingSerializer.overlapping_bookings. cbn [bookings].
  rewrite !filter_app. cbn [filter]. now rewrite Hb.
Qed.

(** X17. Listings are independent: a stored booking of another listing
    than the one requested, whatever its status and dates, has no influence
    on the answer of [validate]. *)
Theorem other_listings_never_block :
  forall (inst : option Booking) (data : BookingSerializer.Data)
         (us : list Z) (ls : list Listing) (rs : list Review)
         (before after : list Booking) (b : Booking),
    BookingSerializer.listing_id data <> Some (booking_listing b) ->
    fst (BookingSerializer.validate inst data
           (mkStore us ls (before ++ b :: after) rs))
    = fst (BookingSerializer.validate inst data
             (mkStore us ls (before ++ after) rs)).
Proof.
  intros inst data us ls rs before after b Hother.
  unfold BookingSerializer.validate.
  destruct (truthy_int _ && truthy_date _ && truthy_date _); [|reflexivity].
  destruct (BookingSerializer.listing_id data) as [lid|]; [|reflexivity].
  destruct (BookingSerializer.check_in data) as [ci|]; [|reflexivity].
  destruct (BookingSerializer.check_out data) as [co|]; [|reflexivity].
  run_py.
  rewrite (overlapping_skips_nonconflicting inst lid ci co us ls rs before after b).
  - destruct (BookingSerializer.overlapping_bookings _ _ _ _ _); [|reflexivity].
    unfold BookingSerializer.available_listing. cbn [listings].
    destruct (hd_error _); reflexivity.
  - unfold BookingSerializer.conflicts.
    destruct (Z.eqb_spec (booking_listing b) lid) as [Heq|]; [|reflexivity].
    exfalso. apply Hother. now rewrite Heq.
Qed.

(** X17 with the confirmed booking of listing 1 and a request for
    listing 2 over the same dates. *)
Lemma other_listings_never_block_witness :
  fst (BookingSerializer.validate None
         (BookingSerializer.mkData (Some 2) (Some (mkdate 2024 3 1))
            (Some (mkdate 2024 3 5)) None None None)
         (mkStore [7] [demo_listing] ([] ++ demo_booking :: []) []))
  = fst (BookingSerializer.validate None
           (BookingSerializer.mkData (Some 2) (Some (mkdate 2024 3 1))
              (Some (mkdate 2024 3 5)) None None None)
           (mkStore [7] [demo_listing] ([] ++ []) [])).
Proof.
  apply (other_listings_never_block None _ [7] [demo_listing] [] [] []
           demo_booking).
  discriminate.
Defined.

Lemma overlapping_after_removal
      (inst : option Booking) (lid : Z) (ci co : date)
      (us : list Z) (ls : list Listing) (rs : list Review)
      (before after : list Booking) (b : Booking) :
  BookingSerializer.overlapping_bookings inst lid ci co
    (mkStore us ls (before ++ b :: after) rs) = [] ->
  BookingSerializer.overlapping_bookings inst lid ci co
    (mkStore us ls (before ++ after) rs) = [].
Proof.
  unfold BookingSerializer.overlapping_bookings. cbn [bookings]. intros Hbig.
  destruct (filter _ (filter _ (before ++ after))) as [|x rest] eqn:E;
    [reflexivity|exfalso].
  assert (Hx : In x (x :: rest)) by now left.
  rewrite <- E in Hx. apply filter_In in Hx. destruct Hx as [Hx Hkeep].
  apply filter_In in Hx. destruct Hx as [Hx Hc].
  assert (Hin : In x (before ++ b :: after)).
  { apply in_app_or in Hx. apply in_or_app.
    destruct Hx as [Hx|Hx]; [now left|right; now right]. }
  assert (Hbigx : In x [])
    by (rewrite <- Hbig; apply filter_In; split;
        [apply filter_In; split; assumption|assumption]).
  exact Hbigx.
Qed.

(** X18. Fewer bookings never block more: a request that [validate]
    accepts on a store is also accepted on the store with any one booking
    row removed. *)
Theorem removing_a_booking_never_blocks :
  forall (inst : option Booking) (data v : BookingSerializer.Data)
         (us : list Z) (ls : list Listing) (rs : list Review)
         (before after : list Booking) (b : Booking),
    fst (BookingSerializer.validate inst data
           (mkStore us ls (before ++ b :: after) rs)) = Ok v ->
    fst (BookingSerializer.validate inst data
           (mkStore us ls (before ++ after) rs)) = Ok v.
Proof.
  intros inst data v us ls rs before after b.
  destruct data as [[lid|] [ci|] [co|] st l g];
    try (unfold BookingSerializer.validate;
         cbn [BookingSerializer.listing_id BookingSerializer.check_in
              BookingSerializer.check_out truthy_int truthy_date];
         rewrite ?andb_false_r; cbn [andb]; intros H; exact H).
  destruct (Z.eq_dec lid 0) as [->|Hnz]; [cbn; intros H; exact H|].
  rewrite !validate_checked by assumption.
  destruct (BookingSerializer.overlapping_bookings inst lid ci co
              (mkStore us ls (before ++ b :: after) rs)) eqn:Ebig;
    [|discriminate].
  rewrite (overlapping_after_removal inst lid ci co us ls rs before after b Ebig).
  unfold BookingSerializer.available_listing. cbn [listings].
  destruct (hd_error _); intros H; exact H.
Qed.

(** X18 on the store with the confirmed booking of the example, which
    accepts the request from 03-05 to 03-08. *)
Lemma removing_a_booking_never_blocks_witness :
  fst (BookingSerializer.validate None
         (BookingSerializer.mkData (Some 1) (Some (mkdate 2024 3 5))
            (Some (mkdate 2024 3 8)) None None None)
         (mkStore [7] [demo_listing] ([] ++ []) []))
  = Ok (BookingSerializer.mkData (Some 1) (Some (mkdate 2024 3 5))
          (Some (mkdate 2024 3 8)) None None None).
Proof.
  apply (removing_a_booking_never_blocks None _ _ [7] [demo_listing] [] [] []
           demo_booking).
  reflexivity.
Defined.

Lemma review_exists_needs_row (lid uid : Z) (s : Store) :
  ReviewSerializer.review_exists lid uid s = true ->
  exists r, In r (reviews s) /\ review_listing r = lid /\ review_user r = uid.
Proof.
  unfold ReviewSerializer.review_exists. intros H.
  apply existsb_exists in H. destruct H as (r & Hr & Heq).
  apply andb_true_iff in Heq. destruct Heq as [H1 H2].
  apply Z.eqb_eq in H1. apply Z.eqb_eq in H2. exists r. auto.
Qed.

(** X19. [ReviewSerializer.validate] only looks for a duplicate: on a
    store with valid foreign keys, a review of a listing id that no stored
    listing has passes validation and fails at the insert with an integrity
    error; nothing is stored. *)
Theorem review_of_unknown_listing_fails_at_insert :
  forall (s : Store) (listingId userId rt : Z) (cm : string),
    references_ok s ->
    ~ In listingId (map listing_pk (listings s)) ->
    fst (ReviewSerializer.validate userId
           (ReviewSerializer.mkData (Some listingId) (Some rt) (Some cm)) s)
    = Ok (ReviewSerializer.mkData (Some listingId) (Some rt) (Some cm))
    /\ createReview listingId userId rt cm s
       = (Raise (IntegrityError "FOREIGN KEY constraint failed"), s).
Proof.
  intros s lid uid rt cm (_ & _ & Hr) Hnot.
  assert (Hnew : ReviewSerializer.review_exists lid uid s = false).
  { destruct (ReviewSerializer.review_exists lid uid s) eqn:E; [|reflexivity].
    exfalso. apply review_exists_needs_row in E.
    destruct E as (r & Hin & Hl & _). rewrite Forall_forall in Hr.
    destruct (Hr r Hin) as [Hlist _]. rewrite Hl in Hlist. contradiction. }
  assert (Hmem : mem_pk lid (map listing_pk (listings s)) = false).
  { destruct (mem_pk lid (map listing_pk (listings s))) eqn:E; [|reflexivity].
    apply mem_pk_true_iff in E. contradiction. }
  unfold createReview, ReviewSerializer.validate, ReviewSerializer.create.
  cbn [ReviewSerializer.listing_id].
  destruct (negb (lid =? 0)); run_py; rewrite ?Hnew;
    cbn [fst ReviewSerializer.listing_id ReviewSerializer.rating_
         ReviewSerializer.comment_];
    (split; [reflexivity|]);
    unfold Review_objects_create; run_py; rewrite Hmem; reflexivity.
Qed.

(** X19 on the store with two listings: listing 9 does not exist. *)
Lemma review_of_unknown_listing_fails_at_insert_witness :
  createReview 9 7 4 "Nice" two_listing_store
  = (Raise (IntegrityError "FOREIGN KEY constraint failed"), two_listing_store).
Proof.
  apply (review_of_unknown_listing_fails_at_insert two_listing_store 9 7 4 "Nice").
  - unfold references_ok, two_listing_store.
    cbn [users listings bookings reviews map listing_pk demo_listing demo_booking
         owner booking_listing guest review_listing review_user].
    repeat constructor; cbn; tauto.
  - cbn. intros [H|[H|[]]]; discriminate.
Defined.
